(** * ro.py: presence and shout mapping

    A shallow embedding of [roblox/presence.py] and [roblox/shout.py].

    The two modules turn decoded JSON documents (Python objects produced by
    [json.loads]) into typed records.  Python exceptions are modelled with the
    error monad [exn + _] of ExtLib; the one effectful operation, the HTTP
    [post] issued by [PresenceProvider.get_user_presences], runs in a small
    monad that threads the log of requests sent so far. *)

From Stdlib Require Import ZArith String List Bool Lia.
From Stdlib Require Import Floats.SpecFloat.
From Stdlib Require Import DecimalString.
From ExtLib Require Import Structures.Monad Data.Monads.EitherMonad.
Import ListNotations MonadNotation.
Local Open Scope string_scope.
Local Open Scope Z_scope.
Local Open Scope monad_scope.

Set Implicit Arguments.

(** ** Decoded JSON documents *)

(** The Python objects [json.loads] produces: [None], [bool], [int] (of
    arbitrary size), [float], [str], [list] and [dict] with string keys.  A
    dict is an association list in insertion order; its keys are pairwise
    distinct in every dict Python can build, and [dict_lookup] reads the first
    binding. *)
#[warnings="-register-all"]
Inductive json : Type :=
| JNull
| JBool (b : bool)
| JInt (n : Z)
| JFloat (f : spec_float)
| JStr (s : string)
| JList (items : list json)
| JDict (entries : list (string * json)).

Fixpoint dict_lookup (key : string) (entries : list (string * json)) : option json :=
  match entries with
  | [] => None
  | (k, v) :: rest => if String.eqb key k then Some v else dict_lookup key rest
  end.

(** ** Exceptions *)

(** The exception classes the two modules can raise.  [ValueError] carries
    the value an enum lookup rejected, [ParserError] the object
    [dateutil.parser.parse] rejected; [OtherError] stands for the exceptions of
    the collaborators (transport, body decoding), which pass through
    unchanged. *)
Inductive exn : Type :=
| KeyError (key : string)
| ValueError (value : json)
| TypeError
| AttributeError (name : string)
| ParserError (timestr : json)
| OtherError (name : string).

Abbreviation result := (sum exn).
Abbreviation Ok := (@inr exn _).
Abbreviation Err := (@inl exn _).

(** ** Python primitives on decoded JSON *)

(** [data[key]] for a string [key]: a dict answers or raises
    [KeyError key]; every other JSON object raises [TypeError] (a list or a
    string wants integer indices, the others are not subscriptable). *)
Definition getitem (data : json) (key : string) : result json :=
  match data with
  | JDict entries =>
      match dict_lookup key entries with
      | Some v => Ok v
      | None => Err (KeyError key)
      end
  | _ => Err TypeError
  end.

(** [data.get(key)]: [None] for a key the dict lacks; only dicts have the
    method. *)
Definition get (data : json) (key : string) : result json :=
  match data with
  | JDict entries =>
      match dict_lookup key entries with
      | Some v => Ok v
      | None => Ok JNull
      end
  | _ => Err (AttributeError "get")
  end.

(** Truth value of an object in a condition ([bool(v)]). *)
Definition truthy (v : json) : bool :=
  match v with
  | JNull => false
  | JBool b => b
  | JInt n => negb (n =? 0)
  | JFloat (S754_zero _) => false
  | JFloat _ => true
  | JStr s => negb (String.eqb s "")
  | JList items => match items with [] => false | _ => true end
  | JDict entries => match entries with [] => false | _ => true end
  end.

(** [f == z] for a float [f] and an int [z]: Python compares the exact
    values. *)
Definition float_eq_int (f : spec_float) (z : Z) : bool :=
  match f with
  | S754_zero _ => z =? 0
  | S754_finite s m e =>
      let v := if s then Z.neg m else Z.pos m in
      if 0 <=? e then v * 2 ^ e =? z else v =? z * 2 ^ (- e)
  | _ => false
  end.

(** [v == z] for an int [z]: [bool] is a subclass of [int], a float is
    compared by value, objects of the other types are never equal to an
    int. *)
Definition py_eq_int (v : json) (z : Z) : bool :=
  match v with
  | JBool b => (if b then 1 else 0) =? z
  | JInt n => n =? z
  | JFloat f => float_eq_int f z
  | _ => false
  end.

(** [iter(v)], as a [for] clause runs it: a list yields its items, a string
    its characters, a dict its keys; the other objects are not iterable. *)
Fixpoint chars (s : string) : list json :=
  match s with
  | EmptyString => []
  | String c rest => JStr (String c EmptyString) :: chars rest
  end.

Definition iter (v : json) : result (list json) :=
  match v with
  | JList items => Ok items
  | JStr s => Ok (chars s)
  | JDict entries => Ok (map (fun kv => JStr (fst kv)) entries)
  | _ => Err TypeError
  end.

(** A comprehension [[f x for x in xs]]: the items are mapped from left to
    right and the first exception ends it. *)
Fixpoint mapM {A B : Type} (f : A -> result B) (xs : list A) : result (list B) :=
  match xs with
  | [] => ret []
  | x :: rest => y <- f x ;; ys <- mapM f rest ;; ret (y :: ys)
  end.

(** ** [PresenceType] *)

Inductive PresenceType : Type := offline | online | in_game | in_studio.

Definition PresenceType_value (m : PresenceType) : Z :=
  match m with
  | offline => 0
  | online => 1
  | in_game => 2
  | in_studio => 3
  end.

Definition PresenceType_members : list PresenceType :=
  [offline; online; in_game; in_studio].

(** [PresenceType(value)]: the member whose value equals [value], and
    [ValueError] when there is none. *)
Definition PresenceType_call (value : json) : result PresenceType :=
  match find (fun m => py_eq_int value (PresenceType_value m)) PresenceType_members with
  | Some m => Ok m
  | None => Err (ValueError value)
  end.

(** [format(n, "")] for an int [n]: its decimal digits, with a minus sign
    for a negative number. *)
Definition format_int (n : Z) : string := NilZero.string_of_int (Z.to_int n).

(** A member of an [IntEnum] inside an f-string is formatted as the int it
    is. *)
Definition PresenceType_format (m : PresenceType) : string :=
  format_int (PresenceType_value m).

Section Mapping.

(** The client object shared by everything a client generates; the mapping
    code only ever passes it on. *)
Variable Client : Type.

(** [dateutil.parser.parse] is a third-party function.  [dateutil_parse v] is
    the [datetime] it returns on [v], [None] when it raises; whatever it raises
    is rendered as [ParserError v]. *)
Variable datetime : Type.
Variable dateutil_parse : json -> option datetime.

Definition parse (timestr : json) : result datetime :=
  match dateutil_parse timestr with
  | Some t => Ok t
  | None => Err (ParserError timestr)
  end.

(** ** Reference handles *)

(** Modelled from the spec: [BasePlace] ([roblox/bases/baseplace.py]) is not
    among the sources.  The spec describes every reference as a minimal value
    holding an identifier plus a reference to the shared client context, built
    without I/O. *)
Record BasePlace : Type := { BasePlace_client : Client; BasePlace_id : json }.

(** Modelled from the spec: [BaseJob] ([roblox/bases/basejob.py]), a
    reference of the same shape. *)
Record BaseJob : Type := { BaseJob_client : Client; BaseJob_id : json }.

(** Modelled from the spec: [BaseUniverse] ([roblox/bases/baseuniverse.py]),
    a reference of the same shape. *)
Record BaseUniverse : Type := { BaseUniverse_client : Client; BaseUniverse_id : json }.

(** Modelled from the spec: [BaseUser] ([roblox/bases/baseuser.py]), a
    reference of the same shape. *)
Record BaseUser : Type := { BaseUser_client : Client; BaseUser_id : json }.

(** Modelled from the spec: [Client.get_base_user] ([roblox/client.py]) is the
    context's user-handle constructor. *)
Definition get_base_user (client : Client) (user_id : json) : BaseUser :=
  {| BaseUser_client := client; BaseUser_id := user_id |}.

(** ** [Presence] *)

Record Presence : Type := {
  Presence_client : Client;
  user_presence_type : PresenceType;
  last_location : json;
  place : option BasePlace;
  root_place : option BasePlace;
  job : option BaseJob;
  universe : option BaseUniverse;
  user : BaseUser;
  last_online : datetime
}.

(** [Presence.__init__], statement by statement.  A conditional expression
    [X if C else None] evaluates [C] first and [X] only when [C] is true. *)
Definition Presence_init (client : Client) (data : json) : result Presence :=
  let self_client := client in
  t <- getitem data "userPresenceType" ;;
  user_presence_type <- PresenceType_call t ;;
  last_location <- getitem data "lastLocation" ;;
  c <- get data "placeId" ;;
  place <- (if truthy c
            then place_id <- getitem data "placeId" ;;
                 ret (Some {| BasePlace_client := client; BasePlace_id := place_id |})
            else ret None) ;;
  c <- get data "rootPlaceId" ;;
  root_place <- (if truthy c
                 then place_id <- getitem data "rootPlaceId" ;;
                      ret (Some {| BasePlace_client := client; BasePlace_id := place_id |})
                 else ret None) ;;
  c <- get data "gameId" ;;
  job <- (if truthy c
          then job_id <- getitem data "gameId" ;;
               ret (Some {| BaseJob_client := self_client; BaseJob_id := job_id |})
          else ret None) ;;
  c <- get data "universeId" ;;
  universe <- (if truthy c
               then universe_id <- getitem data "universeId" ;;
                    ret (Some {| BaseUniverse_client := client; BaseUniverse_id := universe_id |})
               else ret None) ;;
  user_id <- getitem data "userId" ;;
  let user := get_base_user client user_id in
  timestr <- getitem data "lastOnline" ;;
  last_online <- parse timestr ;;
  ret {| Presence_client := self_client;
         user_presence_type := user_presence_type;
         last_location := last_location;
         place := place;
         root_place := root_place;
         job := job;
         universe := universe;
         user := user;
         last_online := last_online |}.

(** [Presence.__repr__]; [self.__class__.__name__] is [Presence] for the
    objects the constructor above builds. *)
Definition Presence_repr (self : Presence) : string :=
  "<" ++ "Presence" ++ " user_presence_type="
      ++ PresenceType_format (user_presence_type self) ++ ">".

(** ** [Shout] *)

(** The shared object of [roblox/utilities/shared.py], passed to all objects a
    client generates. *)
Variable ClientSharedObject : Type.

(** [PartialUser] ([roblox/partials/partialuser.py]) is not among the sources
    and the spec leaves its constructor to that module: [PartialUser_init] is
    the constructor call [PartialUser(shared=..., data=...)], which may
    raise. *)
Variable PartialUser : Type.
Variable PartialUser_init : ClientSharedObject -> json -> result PartialUser.

Record Shout : Type := {
  Shout_shared : ClientSharedObject;
  body : json;
  created : datetime;
  updated : datetime;
  poster : PartialUser
}.

(** [Shout.__init__], statement by statement. *)
Definition Shout_init (shared : ClientSharedObject) (data : json) : result Shout :=
  let self_shared := shared in
  body <- getitem data "body" ;;
  timestr <- getitem data "created" ;;
  created <- parse timestr ;;
  timestr <- getitem data "updated" ;;
  updated <- parse timestr ;;
  poster_data <- getitem data "poster" ;;
  poster <- PartialUser_init self_shared poster_data ;;
  ret {| Shout_shared := self_shared;
         body := body;
         created := created;
         updated := updated;
         poster := poster |}.

(** ** The transport *)

(** One call of [client.requests.post(url=..., json=...)]. *)
Record Request : Type := {
  Request_method : string;
  Request_url : string;
  Request_json : json
}.

(** A computation that may call the transport: it reads the calls made so
    far, returns a value or raises, and leaves the calls made so far, the ones
    before an exception included. *)
Definition io (A : Type) : Type := list Request -> result A * list Request.

#[export] Instance Monad_io : Monad io :=
  {| ret := fun _ a calls => (Ok a, calls);
     bind := fun _ _ c k calls =>
               match c calls with
               | (inr a, calls') => k a calls'
               | (inl e, calls') => (inl e, calls')
               end |}.

Definition lift {A : Type} (r : result A) : io A := fun calls => (r, calls).

(** The transport ([roblox/utilities/requests.py]) and the URL generator
    ([roblox/utilities/url.py]) are collaborators outside the sources.
    [send calls r] is what the transport answers to the call [r] after the
    calls [calls]: a response or an exception; [Response_json] is the
    response's [json()] method; [get_url] is [client.url_generator.get_url]. *)
Variable Response : Type.
Variable Response_json : Response -> result json.
Variable send : list Request -> Request -> result Response.
Variable get_url : Client -> string -> string -> string.

Definition requests_post (url : string) (json : json) : io Response :=
  fun calls =>
    let r := {| Request_method := "POST"; Request_url := url; Request_json := json |} in
    (send calls r, (calls ++ [r])%list).

(** ** [PresenceProvider] *)

(** [UserOrUserId] ([roblox/utilities/types.py]) is [Union[BaseUser, int]]. *)
Inductive UserOrUserId : Type :=
| UserId (n : Z)
| User (u : BaseUser).

(** [int(u)] on a user handle runs the handle's [__int__], which is outside
    the sources: [BaseUser_int] is that call. *)
Variable BaseUser_int : BaseUser -> result Z.

Definition int (user : UserOrUserId) : result Z :=
  match user with
  | UserId n => Ok n
  | User u => BaseUser_int u
  end.

Record PresenceProvider : Type := { PresenceProvider_client : Client }.

(** [PresenceProvider.__init__]. *)
Definition PresenceProvider_init (client : Client) : PresenceProvider :=
  {| PresenceProvider_client := client |}.

(** [PresenceProvider.get_user_presences].  The arguments of [post] are
    evaluated before the call: the URL, then the body, whose [list(map(int,
    users))] raises at the first user [int] rejects. *)
Definition get_user_presences (self : PresenceProvider) (users : list UserOrUserId)
  : io (list Presence) :=
  let client := PresenceProvider_client self in
  let url := get_url client "presence" "v1/presence/users" in
  user_ids <- lift (mapM int users) ;;
  presences_response <- requests_post url (JDict [("userIds", JList (map JInt user_ids))]) ;;
  document <- lift (Response_json presences_response) ;;
  presences_data <- lift (getitem document "userPresences") ;;
  items <- lift (iter presences_data) ;;
  lift (mapM (fun presence_data => Presence_init client presence_data) items).

End Mapping.

Arguments UserId {Client} n.

(** ** Stand-ins for the collaborators

    Concrete collaborators on which the mapping code can be run: a client
    context known by its name, a parser for timestamps written
    [YYYY-MM-DDTHH:MM:SS] with an optional [Z], a partial user that keeps the
    [userId] of its payload, and a transport that answers every call with one
    fixed document. *)
Module Sample.

Definition Client : Type := string.
Definition ClientSharedObject : Type := string.

Record datetime : Type := {
  year : Z; month : Z; day : Z;
  hour : Z; minute : Z; second : Z;
  utcoffset : option Z
}.

Definition digit (c : Ascii.ascii) : option Z :=
  let n := Z.of_nat (Ascii.nat_of_ascii c) in
  if (48 <=? n) && (n <=? 57) then Some (n - 48) else None.

Fixpoint number (acc : Z) (s : string) : option Z :=
  match s with
  | EmptyString => Some acc
  | String c rest =>
      match digit c with
      | Some d => number (10 * acc + d) rest
      | None => None
      end
  end.

Definition dateutil_parse (timestr : json) : option datetime :=
  match timestr with
  | JStr s =>
      let field i n := number 0 (substring i n s) in
      let zone := substring 19 (String.length s - 19) s in
      let marks := [(4, "-"); (7, "-"); (10, "T"); (13, ":"); (16, ":")]%nat in
      if forallb (fun m => String.eqb (substring (fst m) 1 s) (snd m)) marks
         && (String.eqb zone "" || String.eqb zone "Z")
      then
        match (field 0 4, field 5 2, field 8 2, field 11 2, field 14 2, field 17 2)%nat with
        | (Some y, Some mo, Some d, Some h, Some mi, Some se) =>
            Some {| year := y; month := mo; day := d;
                    hour := h; minute := mi; second := se;
                    utcoffset := if String.eqb zone "Z" then Some 0 else None |}
        | _ => None
        end
      else None
  | _ => None
  end.

Record PartialUser : Type := {
  PartialUser_shared : ClientSharedObject;
  PartialUser_id : json
}.

Definition PartialUser_init (shared : ClientSharedObject) (data : json) : result PartialUser :=
  user_id <- get data "userId" ;;
  ret {| PartialUser_shared := shared; PartialUser_id := user_id |}.

Definition Response : Type := result json.
Definition Response_json (r : Response) : result json := r.

Definition send (document : json) (calls : list Request) (r : Request) : result Response :=
  Ok (Ok document).

Definition get_url (client : Client) (subdomain path : string) : string :=
  "https://" ++ subdomain ++ ".roblox.com/" ++ path.

Definition BaseUser_int (u : BaseUser Client) : result Z :=
  match BaseUser_id u with
  | JInt n => Ok n
  | _ => Err TypeError
  end.

(** The mapping code over these collaborators. *)
Definition presence : Client -> json -> result (Presence Client datetime) :=
  Presence_init dateutil_parse.

Definition shout : ClientSharedObject -> json -> result (Shout datetime ClientSharedObject PartialUser) :=
  Shout_init dateutil_parse PartialUser_init.

Definition presences (document : json) (self : PresenceProvider Client)
  (users : list (UserOrUserId Client)) : io (list (Presence Client datetime)) :=
  get_user_presences dateutil_parse Response_json (send document) get_url BaseUser_int self users.

(** The well-formed presence entry and the shout payload the spec gives as
    examples. *)
Definition entry : list (string * json) :=
  [("userPresenceType", JInt 2); ("lastLocation", JStr "Baseplate");
   ("placeId", JInt 123); ("rootPlaceId", JInt 0); ("gameId", JNull);
   ("userId", JInt 789); ("lastOnline", JStr "2023-01-01T00:00:00Z")].

Definition shout_payload : list (string * json) :=
  [("body", JStr "hi"); ("created", JStr "2023-01-01T00:00:00Z");
   ("updated", JStr "2023-01-02T00:00:00Z");
   ("poster", JDict [("userId", JInt 1); ("username", JStr "a")])].

(** An entry whose optional identifiers are false in a condition without
    being absent, null or the integer 0, and one that is negative. *)
Definition falsy_entry : list (string * json) :=
  [("userPresenceType", JInt 0); ("lastLocation", JStr "Website");
   ("placeId", JBool false); ("rootPlaceId", JStr "");
   ("gameId", JInt (-5)); ("universeId", JFloat (S754_zero false));
   ("userId", JInt 1); ("lastOnline", JStr "2023-01-01T00:00:00")].

(** An entry whose four optional identifiers are positive integers, and one
    where they are negative. *)
Definition positive_entry : list (string * json) :=
  [("userPresenceType", JInt 2); ("lastLocation", JStr "Baseplate");
   ("placeId", JInt 123); ("rootPlaceId", JInt 456);
   ("gameId", JInt 7); ("universeId", JInt 99);
   ("userId", JInt 789); ("lastOnline", JStr "2023-01-01T00:00:00Z")].

Definition negative_entry : list (string * json) :=
  [("userPresenceType", JInt 2); ("lastLocation", JStr "Baseplate");
   ("placeId", JInt (-1)); ("rootPlaceId", JInt (-2));
   ("gameId", JInt (-3)); ("universeId", JInt (-4));
   ("userId", JInt 789); ("lastOnline", JStr "2023-01-01T00:00:00Z")].

(** An entry without [userId]. *)
Definition no_user_entry : list (string * json) :=
  [("userPresenceType", JInt 1); ("lastLocation", JStr "Website");
   ("lastOnline", JStr "2023-01-01T00:00:00Z")].


(** A second well-formed entry, for another user. *)
Definition second_entry : list (string * json) :=
  [("userPresenceType", JInt 1); ("lastLocation", JStr "Website");
   ("userId", JInt 790); ("lastOnline", JStr "2023-01-03T10:30:00Z")].

(** Shout payloads: one without [poster], one whose [created] is no
    timestamp. *)
Definition no_poster_payload : list (string * json) :=
  [("body", JStr "hi"); ("created", JStr "2023-01-01T00:00:00Z");
   ("updated", JStr "2023-01-02T00:00:00Z")].


Definition provider : PresenceProvider Client := {| PresenceProvider_client := "c" |}.

(** Response documents: two entries, [userPresences] bound to null, and
    [userPresences] bound to an empty object. *)
Definition two_entries : json :=
  JDict [("userPresences", JList [JDict second_entry; JDict entry])].

Definition null_presences : json := JDict [("userPresences", JNull)].

Definition empty_object_presences : json := JDict [("userPresences", JDict [])].

End Sample.


(** ** Vocabulary of the properties *)

(** The value a dict yields for [key] under [get]: [None] for a missing key. *)
Definition dict_get (entries : list (string * json)) (key : string) : json :=
  match dict_lookup key entries with
  | Some v => v
  | None => JNull
  end.

(** What a conditional expression [R(data[key]) if data.get(key) else None]
    evaluates to on a dict. *)
Definition optional {R : Type} (entries : list (string * json)) (key : string)
  (mk : json -> R) : option R :=
  if truthy (dict_get entries key) then Some (mk (dict_get entries key)) else None.

(** The field [key] is absent, null or the integer zero. *)
Definition absent_null_or_zero (entries : list (string * json)) (key : string) : Prop :=
  dict_lookup key entries = None \/
  dict_lookup key entries = Some JNull \/
  dict_lookup key entries = Some (JInt 0).

(** The rule of the optional identifier fields as the spec words it: no
    reference for an absent, null or zero field, and for a positive integer a
    reference that stores it. *)
Definition positive_rule {R : Type} (r : option R) (id : R -> json)
  (entries : list (string * json)) (key : string) : Prop :=
  (absent_null_or_zero entries key -> r = None) /\
  (forall n, 0 < n -> dict_lookup key entries = Some (JInt n) ->
             exists h, r = Some h /\ id h = JInt n).

(** The rule the code applies: no reference for any value that is false in a
    condition, a reference for a negative integer, and more generally for any
    value that is true in a condition. *)
Definition truthiness_rule {R : Type} (r : option R) (id : R -> json)
  (entries : list (string * json)) (key : string) : Prop :=
  (forall v, dict_lookup key entries = Some v -> truthy v = false -> r = None) /\
  (forall n, n < 0 -> dict_lookup key entries = Some (JInt n) ->
             exists h, r = Some h /\ id h = JInt n) /\
  (forall v, dict_lookup key entries = Some v -> truthy v = true ->
             exists h, r = Some h /\ id h = v).

(** The dict has the key. *)
Definition has_key (entries : list (string * json)) (key : string) : bool :=
  match dict_lookup key entries with
  | Some _ => true
  | None => false
  end.

(** The dict has [userPresenceType] and [PresenceType] accepts its value. *)
Definition valid_type (entries : list (string * json)) : bool :=
  match dict_lookup "userPresenceType" entries with
  | Some t => match PresenceType_call t with inr _ => true | inl _ => false end
  | None => false
  end.

(** The dict has the key and the parser accepts its value. *)
Definition parses {datetime : Type} (dateutil_parse : json -> option datetime)
  (entries : list (string * json)) (key : string) : bool :=
  match dict_lookup key entries with
  | Some timestr => match dateutil_parse timestr with Some _ => true | None => false end
  | None => false
  end.

(** The call [get_user_presences] makes for the user identifiers [ids]. *)
Definition presence_request {Client : Type} (get_url : Client -> string -> string -> string)
  (client : Client) (ids : list Z) : Request :=
  {| Request_method := "POST";
     Request_url := get_url client "presence" "v1/presence/users";
     Request_json := JDict [("userIds", JList (map JInt ids))] |}.

(** ** Properties *)

Section Properties.

Variable Client : Type.
Variable datetime : Type.
Variable dateutil_parse : json -> option datetime.

(** *** The constructor of [Presence] on a dict *)

(** The three cases of a conditional expression on [key]: the key is there
    with a value that is true in a condition, there with one that is false,
    or missing. *)
Ltac optional_field key :=
  let v := fresh "v" in
  destruct (dict_lookup key _) as [v|]; [destruct (truthy v)|]; cbn [truthy].

Lemma Presence_init_dict (client : Client) (entries : list (string * json)) :
  Presence_init dateutil_parse client (JDict entries) =
  match dict_lookup "userPresenceType" entries with
  | None => Err (KeyError "userPresenceType")
  | Some t =>
      match PresenceType_call t with
      | inl e => Err e
      | inr m =>
          match dict_lookup "lastLocation" entries with
          | None => Err (KeyError "lastLocation")
          | Some location =>
              match dict_lookup "userId" entries with
              | None => Err (KeyError "userId")
              | Some user_id =>
                  match dict_lookup "lastOnline" entries with
                  | None => Err (KeyError "lastOnline")
                  | Some timestr =>
                      match dateutil_parse timestr with
                      | None => Err (ParserError timestr)
                      | Some t =>
                          Ok {| Presence_client := client;
                                user_presence_type := m;
                                last_location := location;
                                place := optional entries "placeId" (Build_BasePlace client);
                                root_place := optional entries "rootPlaceId" (Build_BasePlace client);
                                job := optional entries "gameId" (Build_BaseJob client);
                                universe := optional entries "universeId" (Build_BaseUniverse client);
                                user := get_base_user client user_id;
                                last_online := t |}
                      end
                  end
              end
          end
      end
  end.
Proof.
  unfold Presence_init, optional, dict_get, get, getitem, parse.
  cbn [bind ret Monad_either].
  destruct (dict_lookup "userPresenceType" entries) as [t|]; [|reflexivity].
  destruct (PresenceType_call t) as [e|m]; [reflexivity|].
  destruct (dict_lookup "lastLocation" entries) as [location|]; [|reflexivity].
  optional_field "placeId"; optional_field "rootPlaceId";
    optional_field "gameId"; optional_field "universeId";
    (destruct (dict_lookup "userId" entries) as [user_id|]; [|reflexivity]);
    (destruct (dict_lookup "lastOnline" entries) as [timestr|]; [|reflexivity]);
    destruct (dateutil_parse timestr) as [lo|]; reflexivity.
Qed.

Lemma Presence_init_not_dict (client : Client) (data : json) :
  (forall entries, data <> JDict entries) ->
  Presence_init dateutil_parse client data = Err TypeError.
Proof.
  intros H. destruct data; try reflexivity. now destruct (H entries).
Qed.

(** A record comes out of a dict whose mandatory fields are there, and its
    fields are read off the dict. *)
Lemma Presence_init_Ok (client : Client) (entries : list (string * json))
  (p : Presence Client datetime) :
  Presence_init dateutil_parse client (JDict entries) = Ok p ->
  exists t m location user_id timestr lo,
    dict_lookup "userPresenceType" entries = Some t /\
    PresenceType_call t = Ok m /\
    dict_lookup "lastLocation" entries = Some location /\
    dict_lookup "userId" entries = Some user_id /\
    dict_lookup "lastOnline" entries = Some timestr /\
    dateutil_parse timestr = Some lo /\
    p = {| Presence_client := client;
           user_presence_type := m;
           last_location := location;
           place := optional entries "placeId" (Build_BasePlace client);
           root_place := optional entries "rootPlaceId" (Build_BasePlace client);
           job := optional entries "gameId" (Build_BaseJob client);
           universe := optional entries "universeId" (Build_BaseUniverse client);
           user := get_base_user client user_id;
           last_online := lo |}.
Proof.
  rewrite Presence_init_dict.
  destruct (dict_lookup "userPresenceType" entries) as [t|]; [|discriminate].
  destruct (PresenceType_call t) as [e|m] eqn:Hm; [discriminate|].
  destruct (dict_lookup "lastLocation" entries) as [location|]; [|discriminate].
  destruct (dict_lookup "userId" entries) as [user_id|]; [|discriminate].
  destruct (dict_lookup "lastOnline" entries) as [timestr|]; [|discriminate].
  destruct (dateutil_parse timestr) as [lo|] eqn:Hlo; [|discriminate].
  intros [= <-]. exists t, m, location, user_id, timestr, lo.
  repeat split; assumption || reflexivity.
Qed.

(** *** The conditional expressions *)

Lemma optional_falsy (R : Type) (entries : list (string * json)) (key : string)
  (mk : json -> R) :
  truthy (dict_get entries key) = false -> optional entries key mk = None.
Proof. unfold optional. now intros ->. Qed.

Lemma optional_truthy (R : Type) (entries : list (string * json)) (key : string)
  (mk : json -> R) (v : json) :
  dict_lookup key entries = Some v -> truthy v = true ->
  optional entries key mk = Some (mk v).
Proof. unfold optional, dict_get. now intros -> ->. Qed.

Lemma optional_positive_rule (R : Type) (entries : list (string * json)) (key : string)
  (mk : json -> R) (id : R -> json) :
  (forall v, id (mk v) = v) ->
  positive_rule (optional entries key mk) id entries key.
Proof.
  intros Hid. split.
  - intros H. apply optional_falsy. unfold dict_get.
    destruct H as [-> | [-> | ->]]; reflexivity.
  - intros n Hn Hv. exists (mk (JInt n)). split; [|apply Hid].
    apply optional_truthy; [assumption|]. cbn.
    destruct (Z.eqb_spec n 0); [lia|reflexivity].
Qed.

Lemma optional_truthiness_rule (R : Type) (entries : list (string * json)) (key : string)
  (mk : json -> R) (id : R -> json) :
  (forall v, id (mk v) = v) ->
  truthiness_rule (optional entries key mk) id entries key.
Proof.
  intros Hid. split; [|split].
  - intros v Hv Hf. apply optional_falsy. unfold dict_get. now rewrite Hv.
  - intros n Hn Hv. exists (mk (JInt n)). split; [|apply Hid].
    apply optional_truthy; [assumption|]. cbn.
    destruct (Z.eqb_spec n 0); [lia|reflexivity].
  - intros v Hv Ht. exists (mk v). split; [|apply Hid].
    now apply optional_truthy.
Qed.

(** *** The optional identifier fields *)

(** A dict whose mandatory fields are in order yields a record, whatever its
    optional identifier fields hold. *)
Lemma Presence_init_mandatory (client : Client) (entries : list (string * json)) :
  valid_type entries = true ->
  has_key entries "lastLocation" = true ->
  has_key entries "userId" = true ->
  parses dateutil_parse entries "lastOnline" = true ->
  exists p, Presence_init dateutil_parse client (JDict entries) = Ok p.
Proof.
  rewrite Presence_init_dict. unfold valid_type, has_key, parses.
  destruct (dict_lookup "userPresenceType" entries) as [t|]; [|discriminate].
  destruct (PresenceType_call t) as [e|m]; [discriminate|].
  destruct (dict_lookup "lastLocation" entries) as [location|]; [|discriminate].
  destruct (dict_lookup "userId" entries) as [user_id|]; [|discriminate].
  destruct (dict_lookup "lastOnline" entries) as [timestr|]; [|discriminate].
  destruct (dateutil_parse timestr) as [lo|]; [|discriminate].
  intros _ _ _ _. eexists. reflexivity.
Qed.

(** C1.  A presence payload whose mandatory fields are in order
    ([userPresenceType] valid, [lastLocation] and [userId] there, [lastOnline]
    parsed) yields a record, whatever its optional identifier fields hold; and
    in every record built from a payload, each of [place], [root_place], [job]
    and [universe] is [None] when its field ([placeId], [rootPlaceId],
    [gameId], [universeId]) is absent, null or 0, and is a reference storing
    exactly [n] when the field is a positive integer [n]. *)
Theorem Presence_optional_ids_positive (client : Client) (entries : list (string * json)) :
  (valid_type entries = true ->
   has_key entries "lastLocation" = true ->
   has_key entries "userId" = true ->
   parses dateutil_parse entries "lastOnline" = true ->
   exists p, Presence_init dateutil_parse client (JDict entries) = Ok p) /\
  (forall p, Presence_init dateutil_parse client (JDict entries) = Ok p ->
     positive_rule (place p) (@BasePlace_id Client) entries "placeId" /\
     positive_rule (root_place p) (@BasePlace_id Client) entries "rootPlaceId" /\
     positive_rule (job p) (@BaseJob_id Client) entries "gameId" /\
     positive_rule (universe p) (@BaseUniverse_id Client) entries "universeId").
Proof.
  split; [apply Presence_init_mandatory|].
  intros p H. apply Presence_init_Ok in H.
  destruct H as (t & m & location & user_id & timestr & lo & _ & _ & _ & _ & _ & _ & ->).
  cbn [place root_place job universe].
  split; [|split; [|split]]; apply optional_positive_rule; reflexivity.
Qed.

(** C10.  A presence payload whose mandatory fields are in order yields a
    record, whatever its optional identifier fields hold; and in every record
    built, the test on the four optional identifier fields is the truth value
    of the field: a value of any type that is false in a condition ([False],
    the empty string, a zero float, an empty list or dict, as well as null and
    0) gives no reference, and a negative integer [n] gives a reference
    storing [n], as does every value that is true in a condition. *)
Theorem Presence_optional_ids_truthy (client : Client)
  (entries : list (string * json)) :
  (valid_type entries = true ->
   has_key entries "lastLocation" = true ->
   has_key entries "userId" = true ->
   parses dateutil_parse entries "lastOnline" = true ->
   exists p, Presence_init dateutil_parse client (JDict entries) = Ok p) /\
  (forall p, Presence_init dateutil_parse client (JDict entries) = Ok p ->
     truthiness_rule (place p) (@BasePlace_id Client) entries "placeId" /\
     truthiness_rule (root_place p) (@BasePlace_id Client) entries "rootPlaceId" /\
     truthiness_rule (job p) (@BaseJob_id Client) entries "gameId" /\
     truthiness_rule (universe p) (@BaseUniverse_id Client) entries "universeId").
Proof.
  split; [apply Presence_init_mandatory|].
  intros p H. apply Presence_init_Ok in H.
  destruct H as (t & m & location & user_id & timestr & lo & _ & _ & _ & _ & _ & _ & ->).
  cbn [place root_place job universe].
  split; [|split; [|split]]; apply optional_truthiness_rule; reflexivity.
Qed.

(** *** The presence type *)

Lemma PresenceType_call_member (v : Z) :
  0 <= v <= 3 ->
  exists m, PresenceType_value m = v /\ PresenceType_call (JInt v) = Ok m.
Proof.
  intros Hv.
  assert (v = 0 \/ v = 1 \/ v = 2 \/ v = 3) as [-> | [-> | [-> | ->]]] by lia.
  - now exists offline.
  - now exists online.
  - now exists in_game.
  - now exists in_studio.
Qed.

Lemma PresenceType_call_other (v : Z) :
  ~ 0 <= v <= 3 -> PresenceType_call (JInt v) = Err (ValueError (JInt v)).
Proof.
  intros Hv. unfold PresenceType_call. cbn.
  destruct (Z.eqb_spec v 0); [lia|].
  destruct (Z.eqb_spec v 1); [lia|].
  destruct (Z.eqb_spec v 2); [lia|].
  destruct (Z.eqb_spec v 3); [lia|reflexivity].
Qed.

(** C2.  On a payload whose [userPresenceType] is the integer [v]: for [v]
    among 0, 1, 2, 3 the lookup yields the member with value [v], every
    record built from the payload carries it, construction never raises the
    enum's [ValueError], and it succeeds whenever the mandatory fields read
    later are there and the timestamp parses; for every other [v] construction
    raises the enum's [ValueError] on [v] (the spec's InvalidEnumValue). *)
Theorem PresenceType_exact_match (client : Client) (entries : list (string * json))
  (v : Z) :
  dict_lookup "userPresenceType" entries = Some (JInt v) ->
  (0 <= v <= 3 ->
   exists m, PresenceType_value m = v /\
     (forall p, Presence_init dateutil_parse client (JDict entries) = Ok p ->
                user_presence_type p = m) /\
     (forall e, Presence_init dateutil_parse client (JDict entries) = Err e ->
                forall x, e <> ValueError x) /\
     (has_key entries "lastLocation" = true ->
      has_key entries "userId" = true ->
      parses dateutil_parse entries "lastOnline" = true ->
      exists p, Presence_init dateutil_parse client (JDict entries) = Ok p /\
                user_presence_type p = m)) /\
  (~ 0 <= v <= 3 ->
   Presence_init dateutil_parse client (JDict entries) = Err (ValueError (JInt v))).
Proof.
  intros Ht. rewrite Presence_init_dict, Ht. split.
  - intros Hv. destruct (PresenceType_call_member Hv) as (m & Hm & ->).
    exists m. split; [exact Hm|]. unfold has_key, parses.
    assert (forall k, (forall p : Presence Client datetime, Err (KeyError k) = Ok p ->
                                user_presence_type p = m) /\
                      (forall e, @inl exn (Presence Client datetime) (KeyError k) = Err e ->
                                 forall x, e <> ValueError x))
      as Hkey.
    { intros k. split; [intros p [=] | intros e [= <-] x; discriminate]. }
    destruct (dict_lookup "lastLocation" entries) as [location|];
      [|split; [apply Hkey | split; [apply Hkey | discriminate]]].
    destruct (dict_lookup "userId" entries) as [user_id|];
      [|split; [apply Hkey | split; [apply Hkey | discriminate]]].
    destruct (dict_lookup "lastOnline" entries) as [timestr|];
      [|split; [apply Hkey | split; [apply Hkey | discriminate]]].
    destruct (dateutil_parse timestr) as [lo|]; split; [| split | | split].
    + now intros p [= <-].
    + intros e [=].
    + intros _ _ _. eexists. split; reflexivity.
    + intros p [=].
    + intros e [= <-] x. discriminate.
    + discriminate.
  - intros Hv. now rewrite (PresenceType_call_other Hv).
Qed.

(** *** A missing [userId] *)

(** C3.  A payload without the [userId] key never yields a record, and
    when the fields read before it are in order ([userPresenceType] is there
    and valid, [lastLocation] is there) construction raises
    [KeyError "userId"] (the spec's MissingRequiredField naming userId). *)
Theorem Presence_missing_userId (client : Client) (entries : list (string * json)) :
  dict_lookup "userId" entries = None ->
  (forall p, Presence_init dateutil_parse client (JDict entries) <> Ok p) /\
  (valid_type entries = true -> has_key entries "lastLocation" = true ->
   Presence_init dateutil_parse client (JDict entries) = Err (KeyError "userId")).
Proof.
  intros Hu. rewrite Presence_init_dict, Hu. unfold valid_type, has_key.
  destruct (dict_lookup "userPresenceType" entries) as [t|];
    [|split; intros; discriminate].
  destruct (PresenceType_call t) as [e|m]; [split; intros; discriminate|].
  destruct (dict_lookup "lastLocation" entries) as [location|];
    split; intros; discriminate || reflexivity.
Qed.

(** *** The constructor of [Shout] on a dict *)

Variable ClientSharedObject : Type.
Variable PartialUser : Type.
Variable PartialUser_init : ClientSharedObject -> json -> result PartialUser.

Lemma Shout_init_dict (shared : ClientSharedObject) (entries : list (string * json)) :
  Shout_init dateutil_parse PartialUser_init shared (JDict entries) =
  match dict_lookup "body" entries with
  | None => Err (KeyError "body")
  | Some b =>
      match dict_lookup "created" entries with
      | None => Err (KeyError "created")
      | Some c =>
          match dateutil_parse c with
          | None => Err (ParserError c)
          | Some tc =>
              match dict_lookup "updated" entries with
              | None => Err (KeyError "updated")
              | Some u =>
                  match dateutil_parse u with
                  | None => Err (ParserError u)
                  | Some tu =>
                      match dict_lookup "poster" entries with
                      | None => Err (KeyError "poster")
                      | Some poster_data =>
                          match PartialUser_init shared poster_data with
                          | inl e => Err e
                          | inr pu =>
                              Ok {| Shout_shared := shared;
                                    body := b;
                                    created := tc;
                                    updated := tu;
                                    poster := pu |}
                          end
                      end
                  end
              end
          end
      end
  end.
Proof.
  unfold Shout_init, getitem, parse. cbn [bind ret Monad_either].
  destruct (dict_lookup "body" entries) as [b|]; [|reflexivity].
  destruct (dict_lookup "created" entries) as [c|]; [|reflexivity].
  destruct (dateutil_parse c) as [tc|]; [|reflexivity].
  destruct (dict_lookup "updated" entries) as [u|]; [|reflexivity].
  destruct (dateutil_parse u) as [tu|]; [|reflexivity].
  destruct (dict_lookup "poster" entries) as [poster_data|]; [|reflexivity].
  destruct (PartialUser_init shared poster_data) as [e|pu]; reflexivity.
Qed.

Lemma Shout_init_Ok (shared : ClientSharedObject) (entries : list (string * json))
  (s : Shout datetime ClientSharedObject PartialUser) :
  Shout_init dateutil_parse PartialUser_init shared (JDict entries) = Ok s ->
  exists b c tc u tu poster_data pu,
    dict_lookup "body" entries = Some b /\
    dict_lookup "created" entries = Some c /\
    dateutil_parse c = Some tc /\
    dict_lookup "updated" entries = Some u /\
    dateutil_parse u = Some tu /\
    dict_lookup "poster" entries = Some poster_data /\
    PartialUser_init shared poster_data = Ok pu /\
    s = {| Shout_shared := shared; body := b; created := tc; updated := tu;
           poster := pu |}.
Proof.
  rewrite Shout_init_dict.
  destruct (dict_lookup "body" entries) as [b|]; [|discriminate].
  destruct (dict_lookup "created" entries) as [c|]; [|discriminate].
  destruct (dateutil_parse c) as [tc|] eqn:Hc; [|discriminate].
  destruct (dict_lookup "updated" entries) as [u|]; [|discriminate].
  destruct (dateutil_parse u) as [tu|] eqn:Hu; [|discriminate].
  destruct (dict_lookup "poster" entries) as [poster_data|]; [|discriminate].
  destruct (PartialUser_init shared poster_data) as [e|pu] eqn:Hp; [discriminate|].
  intros [= <-]. exists b, c, tc, u, tu, poster_data, pu.
  repeat split; assumption || reflexivity.
Qed.

(** *** The fields of a shout *)

(** C6.  A shout payload that carries [body], [created], [updated] and
    [poster], with timestamps the parser accepts and a poster object the
    partial-user constructor accepts, yields the record holding the payload's
    body, the two parsed timestamps and the partial user built from the poster
    object and the same shared object.  A payload that lacks one of the four
    keys never yields a record; construction raises [KeyError] on the first
    key it lacks, in the order [body], [created], [updated], [poster] (the
    spec's MissingRequiredField), provided the timestamps read before that
    key parse. *)
Theorem Shout_init_fields (shared : ClientSharedObject) (entries : list (string * json)) :
  (forall b c u poster_data tc tu pu,
     dict_lookup "body" entries = Some b ->
     dict_lookup "created" entries = Some c ->
     dict_lookup "updated" entries = Some u ->
     dict_lookup "poster" entries = Some poster_data ->
     dateutil_parse c = Some tc ->
     dateutil_parse u = Some tu ->
     PartialUser_init shared poster_data = Ok pu ->
     Shout_init dateutil_parse PartialUser_init shared (JDict entries) =
     Ok {| Shout_shared := shared; body := b; created := tc; updated := tu;
           poster := pu |}) /\
  (forall key, In key ["body"; "created"; "updated"; "poster"] ->
     dict_lookup key entries = None ->
     forall s, Shout_init dateutil_parse PartialUser_init shared (JDict entries) <> Ok s) /\
  (dict_lookup "body" entries = None ->
   Shout_init dateutil_parse PartialUser_init shared (JDict entries) =
   Err (KeyError "body")) /\
  (has_key entries "body" = true ->
   dict_lookup "created" entries = None ->
   Shout_init dateutil_parse PartialUser_init shared (JDict entries) =
   Err (KeyError "created")) /\
  (has_key entries "body" = true ->
   parses dateutil_parse entries "created" = true ->
   dict_lookup "updated" entries = None ->
   Shout_init dateutil_parse PartialUser_init shared (JDict entries) =
   Err (KeyError "updated")) /\
  (has_key entries "body" = true ->
   parses dateutil_parse entries "created" = true ->
   parses dateutil_parse entries "updated" = true ->
   dict_lookup "poster" entries = None ->
   Shout_init dateutil_parse PartialUser_init shared (JDict entries) =
   Err (KeyError "poster")).
Proof.
  rewrite Shout_init_dict. unfold has_key, parses.
  split; [|split; [|split; [|split; [|split]]]].
  - intros b c u poster_data tc tu pu Hb Hc Hu Hp Htc Htu Hpu.
    now rewrite Hb, Hc, Htc, Hu, Htu, Hp, Hpu.
  - intros key Hin Hkey.
    destruct (dict_lookup "body" entries) as [b|] eqn:Hb; [|discriminate].
    destruct (dict_lookup "created" entries) as [c|] eqn:Hc; [|discriminate].
    destruct (dateutil_parse c) as [tc|]; [|discriminate].
    destruct (dict_lookup "updated" entries) as [u|] eqn:Hu; [|discriminate].
    destruct (dateutil_parse u) as [tu|]; [|discriminate].
    destruct (dict_lookup "poster" entries) as [poster_data|] eqn:Hp; [|discriminate].
    exfalso. cbn in Hin. destruct Hin as [<- | [<- | [<- | [<- | []]]]]; congruence.
  - now intros ->.
  - destruct (dict_lookup "body" entries) as [b|]; [|discriminate].
    now intros _ ->.
  - destruct (dict_lookup "body" entries) as [b|]; [|discriminate].
    destruct (dict_lookup "created" entries) as [c|]; [|discriminate].
    destruct (dateutil_parse c) as [tc|]; [|discriminate].
    now intros _ _ ->.
  - destruct (dict_lookup "body" entries) as [b|]; [|discriminate].
    destruct (dict_lookup "created" entries) as [c|]; [|discriminate].
    destruct (dateutil_parse c) as [tc|]; [|discriminate].
    destruct (dict_lookup "updated" entries) as [u|]; [|discriminate].
    destruct (dateutil_parse u) as [tu|]; [|discriminate].
    now intros _ _ _ ->.
Qed.

(** *** Timestamps *)


(** *** The batch request *)

Variable Response : Type.
Variable Response_json : Response -> result json.
Variable send : list Request -> Request -> result Response.
Variable get_url : Client -> string -> string -> string.
Variable BaseUser_int : BaseUser Client -> result Z.

Lemma Forall2_nth_error (A B : Type) (R : A -> B -> Prop) (xs : list A) (ys : list B) :
  Forall2 R xs ys ->
  forall i x y, nth_error xs i = Some x -> nth_error ys i = Some y -> R x y.
Proof.
  induction 1 as [|x0 y0 xs ys Hxy _ IH]; intros [|i] x y; cbn; try discriminate.
  - now intros [= <-] [= <-].
  - apply IH.
Qed.

Lemma mapM_Forall2 (A B : Type) (f : A -> result B) (xs : list A) (ys : list B) :
  mapM f xs = Ok ys <-> Forall2 (fun x y => f x = Ok y) xs ys.
Proof.
  revert ys. induction xs as [|x xs IH]; intros ys; cbn.
  - split.
    + intros [= <-]. constructor.
    + intros H. inversion H. reflexivity.
  - destruct (f x) as [e|y] eqn:Hx.
    + split; [discriminate|]. intros H. inversion H; subst. congruence.
    + destruct (mapM f xs) as [e|ys'] eqn:Hxs.
      * split; [discriminate|]. intros H. inversion H as [|? y' ? ys'' ? Hrest]; subst.
        apply IH in Hrest. discriminate.
      * split.
        -- intros [= <-]. constructor; [assumption|]. now apply IH.
        -- intros H. inversion H as [|? y' ? ys'' Hy Hrest]; subst.
           apply IH in Hrest. congruence.
Qed.

(** What a call of [get_user_presences] does, step by step: nothing is sent
    when a user cannot be turned into an integer; otherwise one call is
    logged and the result is decided by the transport's answer. *)
Lemma get_user_presences_run (self : PresenceProvider Client)
  (users : list (UserOrUserId Client)) (calls : list Request) :
  get_user_presences dateutil_parse Response_json send get_url BaseUser_int self users calls =
  match mapM (int BaseUser_int) users with
  | inl e => (Err e, calls)
  | inr ids =>
      let r := presence_request get_url (PresenceProvider_client self) ids in
      (match send calls r with
       | inl e => Err e
       | inr response =>
           match Response_json response with
           | inl e => Err e
           | inr document =>
               match getitem document "userPresences" with
               | inl e => Err e
               | inr presences_data =>
                   match iter presences_data with
                   | inl e => Err e
                   | inr items =>
                       mapM (Presence_init dateutil_parse (PresenceProvider_client self)) items
                   end
               end
           end
       end, (calls ++ [r])%list)
  end.
Proof.
  unfold get_user_presences, requests_post, lift, presence_request.
  cbn [bind Monad_io].
  destruct (mapM (int BaseUser_int) users) as [e|ids]; [reflexivity|].
  cbn zeta.
  destruct (send calls _) as [e|response]; [reflexivity|].
  destruct (Response_json response) as [e|document]; [reflexivity|].
  destruct (getitem document "userPresences") as [e|presences_data]; [reflexivity|].
  destruct (iter presences_data) as [e|items]; [reflexivity|].
  destruct (mapM _ items); reflexivity.
Qed.

(** C5.  For every collection of users, the empty one included, whose
    members [int] turns into the integers [ids] (in the order of the users),
    [get_user_presences] makes exactly one call of the transport, a POST whose
    JSON body is the object with the single key [userIds] bound to the list
    [ids]. *)
Theorem get_user_presences_one_request (self : PresenceProvider Client)
  (users : list (UserOrUserId Client)) (ids : list Z) (calls : list Request) :
  Forall2 (fun u n => int BaseUser_int u = Ok n) users ids ->
  snd (get_user_presences dateutil_parse Response_json send get_url BaseUser_int
         self users calls) =
  (calls ++ [{| Request_method := "POST";
               Request_url := get_url (PresenceProvider_client self)
                                "presence" "v1/presence/users";
               Request_json := JDict [("userIds", JList (map JInt ids))] |}])%list.
Proof.
  intros H. apply mapM_Forall2 in H.
  now rewrite get_user_presences_run, H.
Qed.

(** C4.  When the transport's answer decodes to a document whose
    [userPresences] is the array [items], [get_user_presences] returns the
    list [ps] exactly when [ps] lines up with [items] entry by entry, each
    record being what the constructor of [Presence] makes of the entry at the
    same position; a returned list therefore has as many records as the array
    has entries, and its i-th record is the mapping of the i-th entry. *)
Theorem get_user_presences_order (self : PresenceProvider Client)
  (users : list (UserOrUserId Client)) (ids : list Z) (calls : list Request)
  (response : Response) (document : json) (items : list json) :
  Forall2 (fun u n => int BaseUser_int u = Ok n) users ids ->
  send calls (presence_request get_url (PresenceProvider_client self) ids) = Ok response ->
  Response_json response = Ok document ->
  getitem document "userPresences" = Ok (JList items) ->
  forall ps,
    (fst (get_user_presences dateutil_parse Response_json send get_url BaseUser_int
            self users calls) = Ok ps <->
     Forall2 (fun e p => Presence_init dateutil_parse (PresenceProvider_client self) e = Ok p)
             items ps) /\
    (fst (get_user_presences dateutil_parse Response_json send get_url BaseUser_int
            self users calls) = Ok ps ->
     length ps = length items /\
     forall i e p, nth_error items i = Some e -> nth_error ps i = Some p ->
       Presence_init dateutil_parse (PresenceProvider_client self) e = Ok p).
Proof.
  intros H Hs Hj Hd ps. apply mapM_Forall2 in H.
  rewrite get_user_presences_run, H. cbn zeta. rewrite Hs, Hj, Hd. cbn [fst iter].
  split; [apply mapM_Forall2|].
  intros Hps. apply mapM_Forall2 in Hps. split.
  - symmetry. exact (Forall2_length Hps).
  - intros i e p He Hp. exact (Forall2_nth_error Hps i He Hp).
Qed.

(** C8, amended.  When the transport's answer decodes to [document]: if
    reading [userPresences] off it raises (a missing key raises
    [KeyError "userPresences"]) the call raises the same and returns nothing;
    if the value is not an array, the call raises [TypeError] for null, a
    boolean, a number, a non-empty string and a non-empty object, but returns
    the empty list for the empty string and the empty object. *)
Theorem get_user_presences_malformed (self : PresenceProvider Client)
  (users : list (UserOrUserId Client)) (ids : list Z) (calls : list Request)
  (response : Response) (document : json) :
  Forall2 (fun u n => int BaseUser_int u = Ok n) users ids ->
  send calls (presence_request get_url (PresenceProvider_client self) ids) = Ok response ->
  Response_json response = Ok document ->
  (forall entries, document = JDict entries ->
     dict_lookup "userPresences" entries = None ->
     fst (get_user_presences dateutil_parse Response_json send get_url BaseUser_int
            self users calls) = Err (KeyError "userPresences")) /\
  (forall e, getitem document "userPresences" = Err e ->
     fst (get_user_presences dateutil_parse Response_json send get_url BaseUser_int
            self users calls) = Err e) /\
  (forall v, getitem document "userPresences" = Ok v ->
     match v with
     | JList _ => True
     | JStr EmptyString | JDict [] =>
         fst (get_user_presences dateutil_parse Response_json send get_url BaseUser_int
                self users calls) = Ok []
     | _ =>
         fst (get_user_presences dateutil_parse Response_json send get_url BaseUser_int
                self users calls) = Err TypeError
     end).
Proof.
  intros H Hs Hj. apply mapM_Forall2 in H.
  rewrite get_user_presences_run, H. cbn zeta. rewrite Hs, Hj. cbn [fst].
  split; [|split].
  - intros entries -> Hk. cbn. now rewrite Hk.
  - now intros e ->.
  - intros v ->. destruct v as [| | | |[|c s]|items|[|kv rest]];
      first [exact I | reflexivity].
Qed.

End Properties.

(** ** The properties on concrete payloads *)

(** The well-formed entry of the spec maps to a record in game, with a place
    for 123, no root place, no job, no universe and the user 789. *)
Example presence_entry_mapped :
  Sample.presence "c" (JDict Sample.entry) =
  Ok {| Presence_client := "c";
        user_presence_type := in_game;
        last_location := JStr "Baseplate";
        place := Some {| BasePlace_client := "c"; BasePlace_id := JInt 123 |};
        root_place := None;
        job := None;
        universe := None;
        user := {| BaseUser_client := "c"; BaseUser_id := JInt 789 |};
        last_online := {| Sample.year := 2023; Sample.month := 1; Sample.day := 1;
                          Sample.hour := 0; Sample.minute := 0; Sample.second := 0;
                          Sample.utcoffset := Some 0 |} |}.
Proof. reflexivity. Qed.

(** Values of [userPresenceType] that are not integers: [True] equals 1 and
    2.0 equals 2, so the lookup finds a member; the string does not. *)
Example PresenceType_call_other_types :
  PresenceType_call (JBool true) = Ok online /\
  PresenceType_call (JFloat (S754_finite false 4 (-1))) = Ok in_game /\
  PresenceType_call (JStr "1") = Err (ValueError (JStr "1")).
Proof. repeat split. Qed.

Lemma Presence_optional_ids_positive_witness :
  (exists p, Sample.presence "c" (JDict Sample.positive_entry) = Ok p /\
     (exists h, place p = Some h /\ BasePlace_id h = JInt 123) /\
     (exists h, root_place p = Some h /\ BasePlace_id h = JInt 456) /\
     (exists h, job p = Some h /\ BaseJob_id h = JInt 7) /\
     (exists h, universe p = Some h /\ BaseUniverse_id h = JInt 99)) /\
  (exists p, Sample.presence "c" (JDict Sample.entry) = Ok p /\
     (exists h, place p = Some h /\ BasePlace_id h = JInt 123) /\
     root_place p = None /\ job p = None /\ universe p = None).
Proof.
  split.
  - destruct (Presence_optional_ids_positive Sample.dateutil_parse "c"
                Sample.positive_entry) as [Hbuilt Hrule].
    destruct Hbuilt as [p Hp]; try reflexivity.
    exists p. split; [exact Hp|].
    destruct (Hrule p Hp) as ((_ & Hplace) & (_ & Hroot) & (_ & Hjob) & (_ & Huniverse)).
    split; [|split; [|split]].
    + apply (Hplace 123); [lia | reflexivity].
    + apply (Hroot 456); [lia | reflexivity].
    + apply (Hjob 7); [lia | reflexivity].
    + apply (Huniverse 99); [lia | reflexivity].
  - destruct (Presence_optional_ids_positive Sample.dateutil_parse "c"
                Sample.entry) as [Hbuilt Hrule].
    destruct Hbuilt as [p Hp]; try reflexivity.
    exists p. split; [exact Hp|].
    destruct (Hrule p Hp) as ((_ & Hplace) & (Hroot & _) & (Hjob & _) & (Huniverse & _)).
    split; [|split; [|split]].
    + apply (Hplace 123); [lia | reflexivity].
    + apply Hroot. right. right. reflexivity.
    + apply Hjob. right. left. reflexivity.
    + apply Huniverse. left. reflexivity.
Defined.

Lemma Presence_optional_ids_truthy_witness :
  (exists p, Sample.presence "c" (JDict Sample.falsy_entry) = Ok p /\
     place p = None /\ root_place p = None /\
     (exists h, job p = Some h /\ BaseJob_id h = JInt (-5)) /\
     universe p = None) /\
  (exists p, Sample.presence "c" (JDict Sample.negative_entry) = Ok p /\
     (exists h, place p = Some h /\ BasePlace_id h = JInt (-1)) /\
     (exists h, root_place p = Some h /\ BasePlace_id h = JInt (-2)) /\
     (exists h, job p = Some h /\ BaseJob_id h = JInt (-3)) /\
     (exists h, universe p = Some h /\ BaseUniverse_id h = JInt (-4))).
Proof.
  split.
  - destruct (Presence_optional_ids_truthy Sample.dateutil_parse "c"
                Sample.falsy_entry) as [Hbuilt Hrule].
    destruct Hbuilt as [p Hp]; try reflexivity.
    exists p. split; [exact Hp|].
    destruct (Hrule p Hp)
      as ((Hplace & _ & _) & (Hroot & _ & _) & (_ & Hjob & _) & (Huniverse & _ & _)).
    split; [|split; [|split]].
    + apply (Hplace (JBool false)); reflexivity.
    + apply (Hroot (JStr "")); reflexivity.
    + apply (Hjob (-5)); [lia | reflexivity].
    + apply (Huniverse (JFloat (S754_zero false))); reflexivity.
  - destruct (Presence_optional_ids_truthy Sample.dateutil_parse "c"
                Sample.negative_entry) as [Hbuilt Hrule].
    destruct Hbuilt as [p Hp]; try reflexivity.
    exists p. split; [exact Hp|].
    destruct (Hrule p Hp)
      as ((_ & Hplace & _) & (_ & Hroot & _) & (_ & Hjob & _) & (_ & Huniverse & _)).
    split; [|split; [|split]].
    + apply (Hplace (-1)); [lia | reflexivity].
    + apply (Hroot (-2)); [lia | reflexivity].
    + apply (Hjob (-3)); [lia | reflexivity].
    + apply (Huniverse (-4)); [lia | reflexivity].
Defined.

Lemma PresenceType_exact_match_witness :
  (exists p, Sample.presence "c" (JDict Sample.entry) = Ok p /\
             user_presence_type p = in_game) /\
  Sample.presence "c" (JDict [("userPresenceType", JInt 7)]) = Err (ValueError (JInt 7)).
Proof.
  split.
  - destruct (PresenceType_exact_match Sample.dateutil_parse "c" Sample.entry
                (v := 2) eq_refl) as [Hin _].
    destruct Hin as (m & Hm & _ & _ & Hp); [lia|].
    destruct m; try discriminate Hm.
    apply Hp; reflexivity.
  - apply (PresenceType_exact_match Sample.dateutil_parse "c"
             [("userPresenceType", JInt 7)] (v := 7) eq_refl).
    lia.
Defined.

Lemma Presence_missing_userId_witness :
  (forall p, Sample.presence "c" (JDict Sample.no_user_entry) <> Ok p) /\
  Sample.presence "c" (JDict Sample.no_user_entry) = Err (KeyError "userId").
Proof.
  destruct (Presence_missing_userId Sample.dateutil_parse "c" Sample.no_user_entry eq_refl)
    as [Hnever Hraises].
  split; [exact Hnever | apply Hraises; reflexivity].
Defined.

Lemma Shout_init_fields_witness :
  Sample.shout "s" (JDict Sample.shout_payload) =
  Ok {| Shout_shared := "s";
        body := JStr "hi";
        created := {| Sample.year := 2023; Sample.month := 1; Sample.day := 1;
                      Sample.hour := 0; Sample.minute := 0; Sample.second := 0;
                      Sample.utcoffset := Some 0 |};
        updated := {| Sample.year := 2023; Sample.month := 1; Sample.day := 2;
                      Sample.hour := 0; Sample.minute := 0; Sample.second := 0;
                      Sample.utcoffset := Some 0 |};
        poster := {| Sample.PartialUser_shared := "s";
                     Sample.PartialUser_id := JInt 1 |} |} /\
  Sample.shout "s" (JDict Sample.no_poster_payload) = Err (KeyError "poster").
Proof.
  split.
  - apply (proj1 (Shout_init_fields Sample.dateutil_parse Sample.PartialUser_init
                    "s" Sample.shout_payload)) with
      (c := JStr "2023-01-01T00:00:00Z") (u := JStr "2023-01-02T00:00:00Z")
      (poster_data := JDict [("userId", JInt 1); ("username", JStr "a")]);
      reflexivity.
  - apply (Shout_init_fields Sample.dateutil_parse Sample.PartialUser_init
             "s" Sample.no_poster_payload); reflexivity.
Defined.


Lemma get_user_presences_one_request_witness :
  snd (Sample.presences Sample.two_entries Sample.provider [] []) =
  [{| Request_method := "POST";
      Request_url := "https://presence.roblox.com/v1/presence/users";
      Request_json := JDict [("userIds", JList [])] |}] /\
  snd (Sample.presences Sample.two_entries Sample.provider
         [UserId 789; User (get_base_user "c" (JInt 790))] []) =
  [{| Request_method := "POST";
      Request_url := "https://presence.roblox.com/v1/presence/users";
      Request_json := JDict [("userIds", JList [JInt 789; JInt 790])] |}].
Proof.
  split.
  - apply (get_user_presences_one_request Sample.dateutil_parse Sample.Response_json
             (Sample.send Sample.two_entries) Sample.get_url Sample.BaseUser_int
             Sample.provider (users := []) (ids := []) []).
    constructor.
  - apply (get_user_presences_one_request Sample.dateutil_parse Sample.Response_json
             (Sample.send Sample.two_entries) Sample.get_url Sample.BaseUser_int
             Sample.provider (ids := [789; 790]) []).
    repeat constructor.
Defined.

Lemma get_user_presences_order_witness :
  exists p1 p2,
    fst (Sample.presences Sample.two_entries Sample.provider [UserId 789; UserId 790] []) =
    Ok [p1; p2] /\
    BaseUser_id (user p1) = JInt 790 /\ BaseUser_id (user p2) = JInt 789.
Proof.
  destruct (Sample.presence "c" (JDict Sample.second_entry)) as [e|p1] eqn:H1;
    [vm_compute in H1; discriminate H1|].
  destruct (Sample.presence "c" (JDict Sample.entry)) as [e|p2] eqn:H2;
    [vm_compute in H2; discriminate H2|].
  exists p1, p2. split; [|split].
  - apply (get_user_presences_order Sample.dateutil_parse Sample.Response_json
             (Sample.send Sample.two_entries) Sample.get_url Sample.BaseUser_int
             Sample.provider (users := [UserId 789; UserId 790]) (ids := [789; 790]) []
             (response := Ok Sample.two_entries) (document := Sample.two_entries)
             (items := [JDict Sample.second_entry; JDict Sample.entry])).
    + repeat constructor.
    + reflexivity.
    + reflexivity.
    + reflexivity.
    + constructor; [exact H1|]. constructor; [exact H2|]. constructor.
  - vm_compute in H1. now injection H1 as <-.
  - vm_compute in H2. now injection H2 as <-.
Defined.

Lemma get_user_presences_malformed_witness :
  fst (Sample.presences Sample.null_presences Sample.provider [UserId 1] []) = Err TypeError /\
  fst (Sample.presences (JDict []) Sample.provider [UserId 1] []) =
  Err (KeyError "userPresences").
Proof.
  split.
  - destruct (get_user_presences_malformed Sample.dateutil_parse Sample.Response_json
                (Sample.send Sample.null_presences) Sample.get_url Sample.BaseUser_int
                Sample.provider (users := [UserId 1]) (ids := [1]) []
                (response := Ok Sample.null_presences) (document := Sample.null_presences))
      as (_ & _ & Hvalue); [repeat constructor | reflexivity | reflexivity |].
    exact (Hvalue JNull eq_refl).
  - destruct (get_user_presences_malformed Sample.dateutil_parse Sample.Response_json
                (Sample.send (JDict [])) Sample.get_url Sample.BaseUser_int
                Sample.provider (users := [UserId 1]) (ids := [1]) []
                (response := Ok (JDict [])) (document := JDict []))
      as (Hmissing & _ & _); [repeat constructor | reflexivity | reflexivity |].
    exact (Hmissing [] eq_refl eq_refl).
Defined.

(** The call does not fail on every value of [userPresences] that is not an
    array: bound to an empty object it returns the empty list. *)
Lemma get_user_presences_malformed_counterexample :
  getitem Sample.empty_object_presences "userPresences" = Ok (JDict []) /\
  fst (Sample.presences Sample.empty_object_presences Sample.provider [UserId 1] []) = Ok [] /\
  ~ (exists e,
       fst (Sample.presences Sample.empty_object_presences Sample.provider [UserId 1] []) =
       Err e).
Proof.
  split; [reflexivity|]. split; [reflexivity|].
  intros [e H]. discriminate H.
Qed.

(** ** Further behaviour of the constructors and of the provider *)

(** The keys [Presence.__init__] reads, and the keys [Shout.__init__]
    reads. *)
Definition Presence_keys : list string :=
  ["userPresenceType"; "lastLocation"; "placeId"; "rootPlaceId"; "gameId";
   "universeId"; "userId"; "lastOnline"].

Definition Shout_keys : list string := ["body"; "created"; "updated"; "poster"].

(** A transport that raises on every call, and a response whose body does
    not decode. *)
Definition failing_send {Response : Type} (e : exn) (calls : list Request) (r : Request)
  : result Response := Err e.

Definition undecodable : Sample.Response := Err (OtherError "JSONDecodeError").

Definition undecodable_send (calls : list Request) (r : Request)
  : result Sample.Response := Ok undecodable.

(** The spec's entry with keys the constructor does not read, in another
    order; an entry whose [lastLocation] is null and whose [userPresenceType]
    is a boolean; an entry with two things wrong, an unknown presence type and
    no [userId]. *)
Definition reordered_entry : list (string * json) :=
  [("lastOnline", JStr "2023-01-01T00:00:00Z"); ("invisibleModeExpiry", JNull);
   ("userId", JInt 789); ("gameId", JNull); ("rootPlaceId", JInt 0);
   ("placeId", JInt 123); ("lastLocation", JStr "Baseplate");
   ("userPresenceType", JInt 2)].

Definition untyped_entry : list (string * json) :=
  [("userPresenceType", JBool true); ("lastLocation", JNull);
   ("userId", JInt 5); ("lastOnline", JStr "2023-01-01T00:00:00")].

Definition doubly_wrong_entry : list (string * json) :=
  [("userPresenceType", JInt 9); ("lastLocation", JStr "Website");
   ("lastOnline", JStr "yesterday")].

(** A shout payload with a key the constructor does not read, in another
    order, and one whose [poster] is null. *)
Definition reordered_shout_payload : list (string * json) :=
  [("poster", JDict [("userId", JInt 1); ("username", JStr "a")]);
   ("updated", JStr "2023-01-02T00:00:00Z"); ("pinned", JBool false);
   ("created", JStr "2023-01-01T00:00:00Z"); ("body", JStr "hi")].

Definition null_poster_payload : list (string * json) :=
  [("body", JStr "hi"); ("created", JStr "2023-01-01T00:00:00Z");
   ("updated", JStr "2023-01-02T00:00:00Z"); ("poster", JNull)].

(** A response whose second entry lacks [userId]. *)
Definition second_entry_bad : json :=
  JDict [("userPresences", JList [JDict Sample.entry; JDict Sample.no_user_entry;
                                  JDict Sample.second_entry])].

Section Behaviour.

Variable Client : Type.
Variable datetime : Type.
Variable dateutil_parse : json -> option datetime.

(** *** [PresenceType] *)

Lemma PresenceType_value_inj (m1 m2 : PresenceType) :
  PresenceType_value m1 = PresenceType_value m2 -> m1 = m2.
Proof. destruct m1, m2; cbn; intros H; reflexivity || discriminate H. Qed.

Lemma float_eq_int_unique (f : spec_float) (z1 z2 : Z) :
  float_eq_int f z1 = true -> float_eq_int f z2 = true -> z1 = z2.
Proof.
  destruct f as [s| | |s m e]; cbn; try discriminate.
  - intros H1 H2. apply Z.eqb_eq in H1, H2. congruence.
  - destruct (0 <=? e) eqn:He; intros H1 H2; apply Z.eqb_eq in H1, H2.
    + congruence.
    + apply Z.leb_gt in He.
      assert (0 < 2 ^ (- e)) as Hpos by (apply Z.pow_pos_nonneg; lia).
      apply Z.mul_reg_r with (2 ^ (- e)); [lia | congruence].
Qed.

Lemma py_eq_int_unique (v : json) (z1 z2 : Z) :
  py_eq_int v z1 = true -> py_eq_int v z2 = true -> z1 = z2.
Proof.
  destruct v; cbn; try discriminate.
  - intros H1 H2. apply Z.eqb_eq in H1, H2. congruence.
  - intros H1 H2. apply Z.eqb_eq in H1, H2. congruence.
  - apply float_eq_int_unique.
Qed.

Lemma PresenceType_call_Ok (v : json) (m : PresenceType) :
  PresenceType_call v = Ok m -> py_eq_int v (PresenceType_value m) = true.
Proof.
  unfold PresenceType_call.
  destruct (find _ PresenceType_members) as [m'|] eqn:Hfind; [|discriminate].
  intros [= <-]. now apply find_some in Hfind.
Qed.

Lemma PresenceType_call_Err (v : json) (e : exn) :
  PresenceType_call v = Err e ->
  e = ValueError v /\ forall m, py_eq_int v (PresenceType_value m) = false.
Proof.
  unfold PresenceType_call.
  destruct (find _ PresenceType_members) as [m'|] eqn:Hfind; [discriminate|].
  intros [= <-]. split; [reflexivity|]. intros m.
  apply (find_none _ _ Hfind). destruct m; cbn; auto.
Qed.

(** X1.  [PresenceType(v)] returns the member [m] exactly when [v == m.value]
    in Python's sense (so [True] and [1.0] give [online]); it raises
    [ValueError] on [v] exactly when [v] equals no member's value; and the
    value of a member maps back to that member. *)
Theorem PresenceType_call_spec :
  (forall v m, PresenceType_call v = Ok m <-> py_eq_int v (PresenceType_value m) = true) /\
  (forall v e, PresenceType_call v = Err e <->
     e = ValueError v /\ forall m, py_eq_int v (PresenceType_value m) = false) /\
  (forall m, PresenceType_call (JInt (PresenceType_value m)) = Ok m).
Proof.
  split; [|split].
  - intros v m. split; [apply PresenceType_call_Ok|]. intros Hm.
    destruct (PresenceType_call v) as [e|m'] eqn:Hcall.
    + apply PresenceType_call_Err in Hcall. destruct Hcall as [_ Hnone].
      rewrite Hnone in Hm. discriminate Hm.
    + apply PresenceType_call_Ok in Hcall. f_equal.
      apply PresenceType_value_inj. exact (py_eq_int_unique _ _ _ Hcall Hm).
  - intros v e. split; [apply PresenceType_call_Err|]. intros [-> Hnone].
    destruct (PresenceType_call v) as [e|m] eqn:Hcall.
    + apply PresenceType_call_Err in Hcall. now destruct Hcall as [-> _].
    + apply PresenceType_call_Ok in Hcall. rewrite Hnone in Hcall. discriminate Hcall.
  - now intros [].
Qed.

(** *** [Presence.__init__] *)

(** X2.  The constructor of [Presence] returns a record exactly when the
    payload is a dict in which [userPresenceType] is there with a value
    [PresenceType] accepts, [lastLocation] and [userId] are there, and
    [lastOnline] is there with a value the parser accepts; the optional
    identifier fields have no part in it. *)
Theorem Presence_init_succeeds_iff (client : Client) (data : json) :
  (exists p, Presence_init dateutil_parse client data = Ok p) <->
  (exists entries, data = JDict entries /\
     valid_type entries = true /\
     has_key entries "lastLocation" = true /\
     has_key entries "userId" = true /\
     parses dateutil_parse entries "lastOnline" = true).
Proof.
  split.
  - intros [p H]. destruct data as [| | | | | |entries]; try discriminate H.
    exists entries. split; [reflexivity|].
    apply Presence_init_Ok in H.
    destruct H as (t & m & location & user_id & timestr & lo
                   & Ht & Hm & Hl & Hu & Hts & Hlo & _).
    unfold valid_type, has_key, parses. now rewrite Ht, Hm, Hl, Hu, Hts, Hlo.
  - intros (entries & -> & Ht & Hl & Hu & Hts).
    rewrite Presence_init_dict. unfold valid_type, has_key, parses in *.
    destruct (dict_lookup "userPresenceType" entries) as [t|]; [|discriminate].
    destruct (PresenceType_call t) as [e|m]; [discriminate|].
    destruct (dict_lookup "lastLocation" entries) as [location|]; [|discriminate].
    destruct (dict_lookup "userId" entries) as [user_id|]; [|discriminate].
    destruct (dict_lookup "lastOnline" entries) as [timestr|]; [|discriminate].
    destruct (dateutil_parse timestr) as [lo|]; [|discriminate].
    eexists. reflexivity.
Qed.

(** X3.  The only exceptions the constructor of [Presence] raises are
    [TypeError] for a payload that is not a dict and, for a dict, [KeyError]
    on one of the four mandatory keys when it is missing, the enum's
    [ValueError] on the value of [userPresenceType], and the parser's error on
    the value of [lastOnline]: nothing is ever raised about [placeId],
    [rootPlaceId], [gameId] or [universeId]. *)
Theorem Presence_init_exceptions (client : Client) (data : json) (e : exn) :
  Presence_init dateutil_parse client data = Err e ->
  (e = TypeError /\ forall entries, data <> JDict entries) \/
  (exists entries, data = JDict entries /\
     ((e = KeyError "userPresenceType" /\
       dict_lookup "userPresenceType" entries = None) \/
      (exists t, e = ValueError t /\
         dict_lookup "userPresenceType" entries = Some t /\
         PresenceType_call t = Err e) \/
      (e = KeyError "lastLocation" /\ dict_lookup "lastLocation" entries = None) \/
      (e = KeyError "userId" /\ dict_lookup "userId" entries = None) \/
      (e = KeyError "lastOnline" /\ dict_lookup "lastOnline" entries = None) \/
      (exists timestr, e = ParserError timestr /\
         dict_lookup "lastOnline" entries = Some timestr /\
         dateutil_parse timestr = None))).
Proof.
  intros H. destruct data as [| | | | | |entries];
    try (left; injection H as <-; split; [reflexivity | discriminate]).
  right. exists entries. split; [reflexivity|].
  rewrite Presence_init_dict in H.
  destruct (dict_lookup "userPresenceType" entries) as [t|];
    [|injection H as <-; auto].
  destruct (PresenceType_call t) as [e'|m] eqn:Hm.
  { injection H as <-. right. left. exists t.
    destruct (PresenceType_call_Err _ Hm) as [-> _]. auto. }
  destruct (dict_lookup "lastLocation" entries) as [location|];
    [|injection H as <-; auto 6].
  destruct (dict_lookup "userId" entries) as [user_id|];
    [|injection H as <-; auto 7].
  destruct (dict_lookup "lastOnline" entries) as [timestr|];
    [|injection H as <-; auto 8].
  destruct (dateutil_parse timestr) as [lo|] eqn:Hlo; [discriminate H|].
  injection H as <-. do 5 right. exists timestr. auto.
Qed.

(** X4.  The constructor of [Presence] raises for the first field that is
    wrong, in the order [userPresenceType], [lastLocation], [userId],
    [lastOnline], whatever the fields after it hold: a missing
    [userPresenceType] is reported before anything else, a value the enum
    rejects before any missing key, a missing [lastLocation] before a missing
    [userId], and a missing [lastOnline] only when the three before it are in
    order. *)
Theorem Presence_init_first_failure (client : Client) (entries : list (string * json)) :
  (dict_lookup "userPresenceType" entries = None ->
   Presence_init dateutil_parse client (JDict entries) =
   Err (KeyError "userPresenceType")) /\
  (forall t, dict_lookup "userPresenceType" entries = Some t ->
   valid_type entries = false ->
   Presence_init dateutil_parse client (JDict entries) = Err (ValueError t)) /\
  (valid_type entries = true ->
   dict_lookup "lastLocation" entries = None ->
   Presence_init dateutil_parse client (JDict entries) =
   Err (KeyError "lastLocation")) /\
  (valid_type entries = true ->
   has_key entries "lastLocation" = true ->
   has_key entries "userId" = true ->
   dict_lookup "lastOnline" entries = None ->
   Presence_init dateutil_parse client (JDict entries) =
   Err (KeyError "lastOnline")).
Proof.
  rewrite Presence_init_dict. unfold valid_type, has_key.
  split; [|split; [|split]].
  - now intros ->.
  - intros t ->. destruct (PresenceType_call t) as [e|m] eqn:Hm; [|discriminate].
    intros _. now destruct (PresenceType_call_Err _ Hm) as [-> _].
  - destruct (dict_lookup "userPresenceType" entries) as [t|]; [|discriminate].
    destruct (PresenceType_call t) as [e|m]; [discriminate|].
    now intros _ ->.
  - destruct (dict_lookup "userPresenceType" entries) as [t|]; [|discriminate].
    destruct (PresenceType_call t) as [e|m]; [discriminate|].
    destruct (dict_lookup "lastLocation" entries) as [location|]; [|discriminate].
    destruct (dict_lookup "userId" entries) as [user_id|]; [|discriminate].
    now intros _ _ _ ->.
Qed.

(** X5.  The constructor of [Presence] reads eight keys and nothing else:
    two payloads that bind these keys alike give the same result, whatever
    other keys they hold and in whatever order the keys come. *)
Theorem Presence_init_reads_eight_keys (client : Client)
  (entries1 entries2 : list (string * json)) :
  (forall key, In key Presence_keys ->
               dict_lookup key entries1 = dict_lookup key entries2) ->
  Presence_init dateutil_parse client (JDict entries1) =
  Presence_init dateutil_parse client (JDict entries2).
Proof.
  intros H. rewrite !Presence_init_dict. unfold optional, dict_get.
  rewrite !(H "userPresenceType"), !(H "lastLocation"), !(H "placeId"),
    !(H "rootPlaceId"), !(H "gameId"), !(H "universeId"), !(H "userId"),
    !(H "lastOnline") by (cbn; auto 10).
  reflexivity.
Qed.

(** X6.  The mandatory fields are stored without any check of their type:
    in every record built, [last_location] is the value the payload binds to
    [lastLocation], null included, and the presence type is a member whose
    value equals, in Python's sense, the value bound to [userPresenceType]
    (which may be a boolean or a float). *)
Theorem Presence_init_stores_values (client : Client) (entries : list (string * json))
  (p : Presence Client datetime) :
  Presence_init dateutil_parse client (JDict entries) = Ok p ->
  dict_lookup "lastLocation" entries = Some (last_location p) /\
  (exists t, dict_lookup "userPresenceType" entries = Some t /\
     py_eq_int t (PresenceType_value (user_presence_type p)) = true).
Proof.
  intros H. apply Presence_init_Ok in H.
  destruct H as (t & m & location & user_id & timestr & lo
                 & Ht & Hm & Hl & _ & _ & _ & ->).
  cbn. split; [exact Hl|]. exists t. split; [exact Ht|].
  now apply PresenceType_call_Ok.
Qed.

(** *** [Presence.__repr__] *)

(** X7.  The text [__repr__] gives shows the presence type as its number,
    between [<Presence user_presence_type=] and [>], and nothing else of the
    record: two records have the same text exactly when they have the same
    presence type. *)
Theorem Presence_repr_type (p1 p2 : Presence Client datetime) :
  Presence_repr p1 =
  match user_presence_type p1 with
  | offline => "<Presence user_presence_type=0>"
  | online => "<Presence user_presence_type=1>"
  | in_game => "<Presence user_presence_type=2>"
  | in_studio => "<Presence user_presence_type=3>"
  end /\
  (Presence_repr p1 = Presence_repr p2 <-> user_presence_type p1 = user_presence_type p2).
Proof.
  unfold Presence_repr. split.
  - now destruct (user_presence_type p1).
  - split; [|now intros ->].
    destruct (user_presence_type p1), (user_presence_type p2); cbn;
      intros H; reflexivity || discriminate H.
Qed.

(** X16.  The text [__repr__] gives for a record built from a payload whose
    [userPresenceType] is the integer [v] ends with the decimal digits of
    [v]. *)
Theorem Presence_repr_of_payload (client : Client) (entries : list (string * json))
  (v : Z) (p : Presence Client datetime) :
  Presence_init dateutil_parse client (JDict entries) = Ok p ->
  dict_lookup "userPresenceType" entries = Some (JInt v) ->
  Presence_repr p = "<Presence user_presence_type=" ++ format_int v ++ ">".
Proof.
  intros H Hv. apply Presence_init_Ok in H.
  destruct H as (t & m & location & user_id & timestr & lo
                 & Ht & Hm & _ & _ & _ & _ & ->).
  rewrite Hv in Ht. injection Ht as <-.
  apply PresenceType_call_Ok in Hm. cbn in Hm. apply Z.eqb_eq in Hm.
  unfold Presence_repr, PresenceType_format. cbn [user_presence_type].
  now rewrite <- Hm.
Qed.

(** *** [Shout.__init__] *)

Variable ClientSharedObject : Type.
Variable PartialUser : Type.
Variable PartialUser_init : ClientSharedObject -> json -> result PartialUser.

(** X8.  The constructor of [Shout] returns a record exactly when the
    payload is a dict that has [body], has [created] and [updated] with
    values the parser accepts, and has a [poster] the partial-user
    constructor accepts. *)
Theorem Shout_init_succeeds_iff (shared : ClientSharedObject) (data : json) :
  (exists s, Shout_init dateutil_parse PartialUser_init shared data = Ok s) <->
  (exists entries poster_data pu, data = JDict entries /\
     has_key entries "body" = true /\
     parses dateutil_parse entries "created" = true /\
     parses dateutil_parse entries "updated" = true /\
     dict_lookup "poster" entries = Some poster_data /\
     PartialUser_init shared poster_data = Ok pu).
Proof.
  split.
  - intros [s H]. destruct data as [| | | | | |entries]; try discriminate H.
    apply Shout_init_Ok in H.
    destruct H as (b & c & tc & u & tu & poster_data & pu
                   & Hb & Hc & Htc & Hu & Htu & Hp & Hpu & _).
    exists entries, poster_data, pu. unfold has_key, parses.
    now rewrite Hb, Hc, Htc, Hu, Htu.
  - intros (entries & poster_data & pu & -> & Hb & Hc & Hu & Hp & Hpu).
    rewrite Shout_init_dict. unfold has_key, parses in *.
    destruct (dict_lookup "body" entries) as [b|]; [|discriminate].
    destruct (dict_lookup "created" entries) as [c|]; [|discriminate].
    destruct (dateutil_parse c) as [tc|]; [|discriminate].
    destruct (dict_lookup "updated" entries) as [u|]; [|discriminate].
    destruct (dateutil_parse u) as [tu|]; [|discriminate].
    rewrite Hp, Hpu. eexists. reflexivity.
Qed.

(** X9.  The only exceptions the constructor of [Shout] raises are
    [TypeError] for a payload that is not a dict and, for a dict, [KeyError]
    on one of its four keys when it is missing, the parser's error on the
    value of [created] or [updated], and whatever the partial-user
    constructor raised on the poster object; and what that constructor
    raises, once the fields before it are in order, comes out unchanged. *)
Theorem Shout_init_exceptions (shared : ClientSharedObject) :
  (forall data e,
     Shout_init dateutil_parse PartialUser_init shared data = Err e ->
     (e = TypeError /\ forall entries, data <> JDict entries) \/
     (exists entries, data = JDict entries /\
        ((exists key, In key Shout_keys /\ e = KeyError key /\
            dict_lookup key entries = None) \/
         (exists key timestr, In key ["created"; "updated"] /\
            e = ParserError timestr /\
            dict_lookup key entries = Some timestr /\
            dateutil_parse timestr = None) \/
         (exists poster_data, dict_lookup "poster" entries = Some poster_data /\
            PartialUser_init shared poster_data = Err e)))) /\
  (forall entries poster_data e,
     has_key entries "body" = true ->
     parses dateutil_parse entries "created" = true ->
     parses dateutil_parse entries "updated" = true ->
     dict_lookup "poster" entries = Some poster_data ->
     PartialUser_init shared poster_data = Err e ->
     Shout_init dateutil_parse PartialUser_init shared (JDict entries) = Err e).
Proof.
  split.
  - intros data e H. destruct data as [| | | | | |entries];
      try (left; injection H as <-; split; [reflexivity | discriminate]).
    right. exists entries. split; [reflexivity|].
    rewrite Shout_init_dict in H.
    destruct (dict_lookup "body" entries) as [b|] eqn:Hb;
      [|injection H as <-; left; exists "body"; cbn; auto].
    destruct (dict_lookup "created" entries) as [c|] eqn:Hc;
      [|injection H as <-; left; exists "created"; cbn; auto].
    destruct (dateutil_parse c) as [tc|] eqn:Htc;
      [|injection H as <-; right; left; exists "created", c; cbn; auto].
    destruct (dict_lookup "updated" entries) as [u|] eqn:Hu;
      [|injection H as <-; left; exists "updated"; cbn; auto].
    destruct (dateutil_parse u) as [tu|] eqn:Htu;
      [|injection H as <-; right; left; exists "updated", u; cbn; auto].
    destruct (dict_lookup "poster" entries) as [poster_data|] eqn:Hp;
      [|injection H as <-; left; exists "poster"; cbn; auto 6].
    destruct (PartialUser_init shared poster_data) as [e'|pu] eqn:Hpu;
      [|discriminate H].
    injection H as <-. right. right. exists poster_data. auto.
  - intros entries poster_data e Hb Hc Hu Hp Hpu.
    rewrite Shout_init_dict. unfold has_key, parses in *.
    destruct (dict_lookup "body" entries) as [b|]; [|discriminate].
    destruct (dict_lookup "created" entries) as [c|]; [|discriminate].
    destruct (dateutil_parse c) as [tc|]; [|discriminate].
    destruct (dict_lookup "updated" entries) as [u|]; [|discriminate].
    destruct (dateutil_parse u) as [tu|]; [|discriminate].
    now rewrite Hp, Hpu.
Qed.

(** X10.  The constructor of [Shout] reads four keys and nothing else: two
    payloads that bind these keys alike give the same result, whatever other
    keys they hold and in whatever order the keys come. *)
Theorem Shout_init_reads_four_keys (shared : ClientSharedObject)
  (entries1 entries2 : list (string * json)) :
  (forall key, In key Shout_keys ->
               dict_lookup key entries1 = dict_lookup key entries2) ->
  Shout_init dateutil_parse PartialUser_init shared (JDict entries1) =
  Shout_init dateutil_parse PartialUser_init shared (JDict entries2).
Proof.
  intros H. rewrite !Shout_init_dict.
  rewrite !(H "body"), !(H "created"), !(H "updated"), !(H "poster")
    by (cbn; auto 6).
  reflexivity.
Qed.

(** *** [PresenceProvider.get_user_presences] *)

Variable Response : Type.
Variable Response_json : Response -> result json.
Variable send : list Request -> Request -> result Response.
Variable get_url : Client -> string -> string -> string.
Variable BaseUser_int : BaseUser Client -> result Z.

(** A comprehension raises exactly when one of its items does, and raises
    what the first such item raised. *)
Lemma mapM_Err (A B : Type) (f : A -> result B) (xs : list A) (e : exn) :
  mapM f xs = Err e <->
  exists good x rest ys,
    xs = (good ++ x :: rest)%list /\
    Forall2 (fun a b => f a = Ok b) good ys /\ f x = Err e.
Proof.
  induction xs as [|x xs IH]; cbn.
  - split; [discriminate|]. intros (good & x & rest & ys & H & _).
    now destruct good.
  - destruct (f x) as [e'|y] eqn:Hx.
    + split.
      * intros [= <-]. exists [], x, xs, []. repeat split; [constructor | exact Hx].
      * intros ([|g good] & x' & rest & ys & H & Hgood & Hx'); injection H as <- _.
        -- congruence.
        -- inversion Hgood; subst. congruence.
    + destruct (mapM f xs) as [e'|ys'] eqn:Hxs.
      * split.
        -- intros [= <-]. destruct (proj1 IH eq_refl) as (good & x' & rest & ys & -> & Hgood & Hx').
           exists (x :: good), x', rest, (y :: ys). repeat split; [|exact Hx'].
           now constructor.
        -- intros ([|g good] & x' & rest & ys & H & Hgood & Hx'); injection H as <- ->.
           ++ congruence.
           ++ inversion Hgood; subst. apply IH. now exists good, x', rest, l'.
      * split; [discriminate|].
        intros ([|g good] & x' & rest & ys & H & Hgood & Hx'); injection H as <- ->.
        -- congruence.
        -- inversion Hgood; subst.
           assert (@inr exn (list B) ys' = Err e) as Habs; [|discriminate Habs].
           apply IH. now exists good, x', rest, l'.
Qed.

Lemma mapM_Err_Exists (A B : Type) (f : A -> result B) (xs : list A) :
  (exists e, mapM f xs = Err e) <-> Exists (fun x => exists e, f x = Err e) xs.
Proof.
  split.
  - intros [e H]. apply mapM_Err in H.
    destruct H as (good & x & rest & ys & -> & _ & Hx).
    apply Exists_app. right. constructor. now exists e.
  - induction 1 as [x xs [e Hx]|x xs _ [e IH]]; cbn.
    + rewrite Hx. now exists e.
    + destruct (f x) as [e'|y]; [now exists e'|]. rewrite IH. now exists e.
Qed.

(** X11.  Whatever the users and the transport, [get_user_presences] either
    sends nothing, which happens exactly when [int] rejects one of the users,
    or makes the single call for the integers of all its users; the calls made
    before are left as they were. *)
Theorem get_user_presences_calls (self : PresenceProvider Client)
  (users : list (UserOrUserId Client)) (calls : list Request) :
  (Exists (fun u => exists e, int BaseUser_int u = Err e) users /\
   snd (get_user_presences dateutil_parse Response_json send get_url BaseUser_int
          self users calls) = calls) \/
  (exists ids, Forall2 (fun u n => int BaseUser_int u = Ok n) users ids /\
   snd (get_user_presences dateutil_parse Response_json send get_url BaseUser_int
          self users calls) =
   (calls ++ [presence_request get_url (PresenceProvider_client self) ids])%list).
Proof.
  rewrite get_user_presences_run.
  destruct (mapM (int BaseUser_int) users) as [e|ids] eqn:H.
  - left. split; [|reflexivity]. apply mapM_Err_Exists. now exists e.
  - right. exists ids. split; [|reflexivity]. now apply mapM_Forall2.
Qed.

(** X12.  When [int] rejects a user, [get_user_presences] raises what [int]
    raised on the first such user, and the transport is not called. *)
Theorem get_user_presences_rejected_user (self : PresenceProvider Client)
  (accepted : list (UserOrUserId Client)) (u : UserOrUserId Client)
  (rest : list (UserOrUserId Client)) (ids : list Z) (e : exn) (calls : list Request) :
  Forall2 (fun u n => int BaseUser_int u = Ok n) accepted ids ->
  int BaseUser_int u = Err e ->
  get_user_presences dateutil_parse Response_json send get_url BaseUser_int
    self (accepted ++ u :: rest) calls = (Err e, calls).
Proof.
  intros Hacc Hu. rewrite get_user_presences_run.
  assert (mapM (int BaseUser_int) (accepted ++ u :: rest) = Err e) as ->;
    [|reflexivity].
  apply mapM_Err. now exists accepted, u, rest, ids.
Qed.

(** X13.  An exception of the transport, and an exception of the response's
    [json()], come out of [get_user_presences] unchanged: nothing is caught
    and nothing is retried. *)
Theorem get_user_presences_transport_errors (self : PresenceProvider Client)
  (users : list (UserOrUserId Client)) (ids : list Z) (calls : list Request) :
  Forall2 (fun u n => int BaseUser_int u = Ok n) users ids ->
  (forall e,
     send calls (presence_request get_url (PresenceProvider_client self) ids) = Err e ->
     get_user_presences dateutil_parse Response_json send get_url BaseUser_int
       self users calls =
     (Err e, (calls ++ [presence_request get_url (PresenceProvider_client self) ids])%list)) /\
  (forall response e,
     send calls (presence_request get_url (PresenceProvider_client self) ids) = Ok response ->
     Response_json response = Err e ->
     get_user_presences dateutil_parse Response_json send get_url BaseUser_int
       self users calls =
     (Err e, (calls ++ [presence_request get_url (PresenceProvider_client self) ids])%list)).
Proof.
  intros H. apply mapM_Forall2 in H. rewrite get_user_presences_run, H. cbn zeta.
  split.
  - now intros e ->.
  - now intros response e -> ->.
Qed.

(** X14.  One entry of the response that the constructor of [Presence]
    rejects fails the whole call: [get_user_presences] raises what the first
    such entry raised and returns no record, not even those of the entries
    before it. *)
Theorem get_user_presences_first_bad_entry (self : PresenceProvider Client)
  (users : list (UserOrUserId Client)) (ids : list Z) (calls : list Request)
  (response : Response) (document : json) (good : list json) (bad : json)
  (rest : list json) (ps : list (Presence Client datetime)) (e : exn) :
  Forall2 (fun u n => int BaseUser_int u = Ok n) users ids ->
  send calls (presence_request get_url (PresenceProvider_client self) ids) = Ok response ->
  Response_json response = Ok document ->
  getitem document "userPresences" = Ok (JList (good ++ bad :: rest)) ->
  Forall2 (fun entry p =>
             Presence_init dateutil_parse (PresenceProvider_client self) entry = Ok p)
          good ps ->
  Presence_init dateutil_parse (PresenceProvider_client self) bad = Err e ->
  fst (get_user_presences dateutil_parse Response_json send get_url BaseUser_int
         self users calls) = Err e.
Proof.
  intros H Hs Hj Hd Hgood Hbad. apply mapM_Forall2 in H.
  rewrite get_user_presences_run, H. cbn zeta. rewrite Hs, Hj, Hd. cbn [fst iter].
  apply mapM_Err. now exists good, bad, rest, ps.
Qed.

(** X15.  Every record [get_user_presences] returns carries the client the
    provider was built with. *)
Theorem get_user_presences_client (client : Client)
  (users : list (UserOrUserId Client)) (calls : list Request)
  (ps : list (Presence Client datetime)) :
  fst (get_user_presences dateutil_parse Response_json send get_url BaseUser_int
         (PresenceProvider_init client) users calls) = Ok ps ->
  Forall (fun p => Presence_client p = client) ps.
Proof.
  rewrite get_user_presences_run.
  destruct (mapM (int BaseUser_int) users) as [e|ids]; [discriminate|]. cbn zeta.
  destruct (send calls _) as [e|response]; [discriminate|].
  destruct (Response_json response) as [e|document]; [discriminate|].
  destruct (getitem document "userPresences") as [e|presences_data]; [discriminate|].
  destruct (iter presences_data) as [e|items]; [discriminate|].
  cbn [fst PresenceProvider_init PresenceProvider_client]. intros H.
  apply mapM_Forall2 in H.
  induction H as [|entry p items ps Hp _ IH]; constructor; [|exact IH].
  destruct entry as [| | | | | |entries]; try discriminate Hp.
  apply Presence_init_Ok in Hp.
  now destruct Hp as (t & m & location & user_id & timestr & lo
                      & _ & _ & _ & _ & _ & _ & ->).
Qed.

End Behaviour.

(** ** The further behaviour on concrete payloads *)

Lemma PresenceType_call_spec_witness :
  PresenceType_call (JBool true) = Ok online /\
  PresenceType_call (JStr "1") = Err (ValueError (JStr "1")).
Proof.
  destruct PresenceType_call_spec as (Hok & Herr & _). split.
  - apply Hok. reflexivity.
  - apply Herr. split; [reflexivity | now intros []].
Defined.

Lemma Presence_init_succeeds_iff_witness :
  exists p, Sample.presence "c" (JDict untyped_entry) = Ok p.
Proof.
  apply (Presence_init_succeeds_iff Sample.dateutil_parse "c" (JDict untyped_entry)).
  exists untyped_entry. repeat split.
Defined.

Lemma Presence_init_exceptions_witness :
  exists e, Sample.presence "c" (JDict doubly_wrong_entry) = Err e /\
    exists t, e = ValueError t /\
      dict_lookup "userPresenceType" doubly_wrong_entry = Some t.
Proof.
  exists (ValueError (JInt 9)). split; [reflexivity|].
  destruct (Presence_init_exceptions Sample.dateutil_parse "c"
              (JDict doubly_wrong_entry) (e := ValueError (JInt 9)) eq_refl)
    as [[H _] | (entries & Hd & H)]; [discriminate H|].
  injection Hd as <-.
  destruct H as [[H _] | [(t & H & Ht & _) | [[H _] | [[H _] | [[H _] | (ts & H & _)]]]]];
    try discriminate H.
  exists t. split; assumption.
Defined.

Lemma Presence_init_first_failure_witness :
  Sample.presence "c" (JDict doubly_wrong_entry) = Err (ValueError (JInt 9)) /\
  Sample.presence "c" (JDict [("lastLocation", JStr "Website")]) =
  Err (KeyError "userPresenceType").
Proof.
  split.
  - apply (Presence_init_first_failure Sample.dateutil_parse "c" doubly_wrong_entry);
      reflexivity.
  - apply (Presence_init_first_failure Sample.dateutil_parse "c"
             [("lastLocation", JStr "Website")]).
    reflexivity.
Defined.

Lemma Presence_init_reads_eight_keys_witness :
  Sample.presence "c" (JDict reordered_entry) = Sample.presence "c" (JDict Sample.entry).
Proof.
  apply (Presence_init_reads_eight_keys Sample.dateutil_parse "c").
  intros key Hin. cbn in Hin.
  repeat (destruct Hin as [<- | Hin]; [reflexivity|]). destruct Hin.
Defined.

Lemma Presence_init_stores_values_witness :
  exists p, Sample.presence "c" (JDict untyped_entry) = Ok p /\
    last_location p = JNull /\ user_presence_type p = online.
Proof.
  destruct (Sample.presence "c" (JDict untyped_entry)) as [e|p] eqn:H;
    [vm_compute in H; discriminate H|].
  exists p. split; [reflexivity|].
  destruct (Presence_init_stores_values Sample.dateutil_parse "c" untyped_entry H)
    as (Hl & t & Ht & Heq).
  cbn in Hl, Ht. split.
  - injection Hl as Hl. now symmetry.
  - injection Ht as <-.
    unfold Sample.Client in *. revert Heq.
    destruct (user_presence_type p); intros Heq; vm_compute in Heq;
      reflexivity || discriminate Heq.
Defined.

Lemma Shout_init_succeeds_iff_witness :
  exists s, Sample.shout "s" (JDict reordered_shout_payload) = Ok s.
Proof.
  apply (Shout_init_succeeds_iff Sample.dateutil_parse Sample.PartialUser_init "s"
           (JDict reordered_shout_payload)).
  exists reordered_shout_payload.
  exists (JDict [("userId", JInt 1); ("username", JStr "a")]).
  eexists. repeat split.
Defined.

Lemma Shout_init_exceptions_witness :
  Sample.shout "s" (JDict null_poster_payload) = Err (AttributeError "get").
Proof.
  apply (proj2 (Shout_init_exceptions Sample.dateutil_parse Sample.PartialUser_init "s"))
    with (poster_data := JNull); reflexivity.
Defined.

Lemma Shout_init_reads_four_keys_witness :
  Sample.shout "s" (JDict reordered_shout_payload) =
  Sample.shout "s" (JDict Sample.shout_payload).
Proof.
  apply (Shout_init_reads_four_keys Sample.dateutil_parse Sample.PartialUser_init "s").
  intros key Hin. cbn in Hin.
  repeat (destruct Hin as [<- | Hin]; [reflexivity|]). destruct Hin.
Defined.

Lemma get_user_presences_rejected_user_witness :
  Sample.presences Sample.two_entries Sample.provider
    [UserId 1; User (get_base_user "c" JNull); UserId 3] [] = (Err TypeError, []).
Proof.
  apply (get_user_presences_rejected_user Sample.dateutil_parse Sample.Response_json
           (Sample.send Sample.two_entries) Sample.get_url Sample.BaseUser_int
           Sample.provider (accepted := [UserId 1])
           (User (get_base_user "c" JNull)) [UserId 3] (ids := [1]) []).
  - repeat constructor.
  - reflexivity.
Defined.

Lemma get_user_presences_transport_errors_witness :
  get_user_presences Sample.dateutil_parse Sample.Response_json
    (failing_send (OtherError "Forbidden")) Sample.get_url Sample.BaseUser_int
    Sample.provider [UserId 1] [] =
  (Err (OtherError "Forbidden"), [presence_request Sample.get_url "c" [1]]) /\
  get_user_presences Sample.dateutil_parse Sample.Response_json
    undecodable_send Sample.get_url Sample.BaseUser_int
    Sample.provider [UserId 1] [] =
  (Err (OtherError "JSONDecodeError"), [presence_request Sample.get_url "c" [1]]).
Proof.
  split.
  - apply (get_user_presences_transport_errors Sample.dateutil_parse Sample.Response_json
             (failing_send (OtherError "Forbidden")) Sample.get_url Sample.BaseUser_int
             Sample.provider (users := [UserId 1]) (ids := [1]) []).
    + repeat constructor.
    + reflexivity.
  - apply (proj2 (get_user_presences_transport_errors Sample.dateutil_parse
                    Sample.Response_json undecodable_send Sample.get_url
                    Sample.BaseUser_int Sample.provider (users := [UserId 1]) (ids := [1]) []
                    ltac:(repeat constructor)))
      with (response := undecodable); reflexivity.
Defined.

Lemma get_user_presences_first_bad_entry_witness :
  fst (Sample.presences second_entry_bad Sample.provider [UserId 789] []) =
  Err (KeyError "userId").
Proof.
  destruct (Sample.presence "c" (JDict Sample.entry)) as [e|p] eqn:H;
    [vm_compute in H; discriminate H|].
  apply (get_user_presences_first_bad_entry Sample.dateutil_parse Sample.Response_json
           (Sample.send second_entry_bad) Sample.get_url Sample.BaseUser_int
           Sample.provider (users := [UserId 789]) (ids := [789]) []
           (response := Ok second_entry_bad) (document := second_entry_bad)
           (good := [JDict Sample.entry]) (JDict Sample.no_user_entry)
           [JDict Sample.second_entry] (ps := [p])).
  - repeat constructor.
  - reflexivity.
  - reflexivity.
  - reflexivity.
  - constructor; [exact H | constructor].
  - reflexivity.
Defined.

Lemma get_user_presences_client_witness :
  exists ps,
    fst (Sample.presences Sample.two_entries (PresenceProvider_init "c")
           [UserId 789; UserId 790] []) = Ok ps /\
    length ps = 2%nat /\ Forall (fun p => Presence_client p = "c") ps.
Proof.
  destruct (fst (Sample.presences Sample.two_entries (PresenceProvider_init "c")
                   [UserId 789; UserId 790] [])) as [e|ps] eqn:H;
    [vm_compute in H; discriminate H|].
  exists ps. split; [reflexivity|]. split.
  - vm_compute in H. now injection H as <-.
  - exact (get_user_presences_client Sample.dateutil_parse Sample.Response_json
             (Sample.send Sample.two_entries) Sample.get_url Sample.BaseUser_int
             "c" [UserId 789; UserId 790] [] H).
Defined.

Lemma Presence_repr_of_payload_witness :
  exists p, Sample.presence "c" (JDict Sample.entry) = Ok p /\
    Presence_repr p = "<Presence user_presence_type=2>".
Proof.
  destruct (Sample.presence "c" (JDict Sample.entry)) as [e|p] eqn:H;
    [vm_compute in H; discriminate H|].
  exists p. split; [reflexivity|].
  exact (Presence_repr_of_payload Sample.dateutil_parse "c" Sample.entry (v := 2) H eq_refl).
Defined.
